(** * retriever_asm: a shallow embedding of the simplified assembly interpreter

    The development follows [retriever_asm.py] function by function.

    - Python [str] values are Rocq [string]s; a character is a code point
      below 256.  [int(...)]'s limit on the number of digits is not
      modelled.
    - Python [int] is [Z] (arbitrary precision, [//] and [%] are floor
      division and its remainder, as [Z.div] and [Z.modulo]).
    - Python lists ([ram], [program]) are Rocq lists, subscripted with
      Python's rule for negative indices.
    - An uncaught exception ends the run; it is the [Raise] case of
      [result].
    - [print] and [input] act on an explicit console. *)

From Stdlib Require Import ZArith String Ascii DecimalString DecimalPos.
From stdpp Require Import base tactics option list strings.

Local Open Scope string_scope.
Local Open Scope Z_scope.

(** ** Exceptions *)

Inductive exn : Type :=
| ValueError
| IndexError
| EOFError.

Inductive result (A : Type) : Type :=
| Ok (a : A)
| Raise (e : exn).

Arguments Ok {A} a.
Arguments Raise {A} e.

#[global] Instance result_ret : MRet result := fun A a => Ok a.
#[global] Instance result_bind : MBind result := fun A B f m =>
  match m with
  | Ok a => f a
  | Raise e => Raise e
  end.

(** ** Python's string primitives *)

Module Py.

(** [str.isspace] on one character (code points below 256). *)
Definition isspace (c : ascii) : bool :=
  let n := nat_of_ascii c in
  ((9 <=? n) && (n <=? 13) || (28 <=? n) && (n <=? 32)
   || (n =? 133) || (n =? 160))%nat.

(** [c in chars], for a one-character [c]. *)
Fixpoint char_in (c : ascii) (chars : string) : bool :=
  match chars with
  | EmptyString => false
  | String d chars' => Ascii.eqb c d || char_in c chars'
  end.

Definition is_empty (s : string) : bool :=
  match s with
  | EmptyString => true
  | String _ _ => false
  end.

Fixpoint lstrip_by (p : ascii -> bool) (s : string) : string :=
  match s with
  | EmptyString => EmptyString
  | String c s' => if p c then lstrip_by p s' else s
  end.

Fixpoint rstrip_by (p : ascii -> bool) (s : string) : string :=
  match s with
  | EmptyString => EmptyString
  | String c s' =>
      let r := rstrip_by p s' in
      if p c && is_empty r then EmptyString else String c r
  end.

(** [s.strip()] *)
Definition strip (s : string) : string :=
  rstrip_by isspace (lstrip_by isspace s).

(** [s.strip(chars)] *)
Definition strip_chars (chars : string) (s : string) : string :=
  rstrip_by (fun c => char_in c chars) (lstrip_by (fun c => char_in c chars) s).

(** [s.split()]: the maximal runs of non-whitespace characters. [cur] is
    the token being read. *)
Fixpoint split_go (cur : string) (s : string) : list string :=
  match s with
  | EmptyString => if is_empty cur then [] else [cur]
  | String c s' =>
      if isspace c
      then (if is_empty cur then split_go EmptyString s'
            else cur :: split_go EmptyString s')
      else split_go (cur +:+ String c EmptyString) s'
  end.

Definition split (s : string) : list string := split_go EmptyString s.

(** [sub in s] *)
Fixpoint contains (sub s : string) : bool :=
  String.prefix sub s ||
  match s with
  | EmptyString => false
  | String _ s' => contains sub s'
  end.

(** [s.lower()] (code points below 256). *)
Definition lower_char (c : ascii) : ascii :=
  let n := nat_of_ascii c in
  if ((65 <=? n) && (n <=? 90)
      || (192 <=? n) && (n <=? 222) && negb (n =? 215))%nat
  then ascii_of_nat (n + 32)
  else c.

Fixpoint lower (s : string) : string :=
  match s with
  | EmptyString => EmptyString
  | String c s' => String (lower_char c) (lower s')
  end.

(** [sep.join(l)] *)
Fixpoint join (sep : string) (l : list string) : string :=
  match l with
  | [] => EmptyString
  | [x] => x
  | x :: l' => x +:+ sep +:+ join sep l'
  end.

(** [s[0:n]] *)
Definition slice_to (n : nat) (s : string) : string := substring 0 n s.

(** The digits of an [int] literal: decimal digits, single underscores
    allowed between two digits. [after_digit] tells whether the previous
    character was a digit. *)
Definition digit_value (c : ascii) : option Z :=
  let n := nat_of_ascii c in
  if ((48 <=? n) && (n <=? 57))%nat then Some (Z.of_nat n - 48) else None.

Fixpoint int_digits (acc : Z) (after_digit : bool) (s : string) : option Z :=
  match s with
  | EmptyString => if after_digit then Some acc else None
  | String c s' =>
      if Ascii.eqb c "_"
      then (if after_digit then int_digits acc false s' else None)
      else match digit_value c with
           | Some d => int_digits (10 * acc + d) true s'
           | None => None
           end
  end.

(** The characters [int(s)] skips at both ends of [s]: tab to carriage
    return, space, and the two whitespace code points above 127. The
    separators 28 to 31, which [str.isspace] accepts, are not skipped. *)
Definition int_space (c : ascii) : bool :=
  let n := nat_of_ascii c in
  ((9 <=? n) && (n <=? 13) || (n =? 32) || (n =? 133) || (n =? 160))%nat.

(** [int(s)] for a string [s]. *)
Definition int (s : string) : result Z :=
  let body (neg : bool) (digits : string) :=
    match int_digits 0 false digits with
    | Some n => Ok (if neg then - n else n)
    | None => Raise ValueError
    end in
  match rstrip_by int_space (lstrip_by int_space s) with
  | String "-" digits => body true digits
  | String "+" digits => body false digits
  | digits => body false digits
  end.

(** [str(n)] for an integer [n]. *)
Definition str (n : Z) : string := NilEmpty.string_of_int (Z.to_int n).

(** The position a subscript [i] denotes in a sequence of length [n]:
    negative subscripts count from the end. *)
Definition position (n : nat) (i : Z) : option nat :=
  let j := if i <? 0 then i + Z.of_nat n else i in
  if (0 <=? j) && (j <? Z.of_nat n) then Some (Z.to_nat j) else None.

(** [l[i]] *)
Definition getitem {A : Type} (l : list A) (i : Z) : result A :=
  match position (length l) i with
  | Some k =>
      match l !! k with
      | Some x => Ok x
      | None => Raise IndexError
      end
  | None => Raise IndexError
  end.

(** [l[i] = x] *)
Definition setitem {A : Type} (l : list A) (i : Z) (x : A) : result (list A) :=
  match position (length l) i with
  | Some k => Ok (<[k := x]> l)
  | None => Raise IndexError
  end.

End Py.

(** ** The console: what [print] wrote and what [input] will read *)

Record console : Type := Console {
  stdin : list string;   (* the lines still to be read *)
  stdout : list string   (* the chunks written so far, oldest first *)
}.

Definition newline : string := String "010"%char EmptyString.

(** [print(text)] *)
Definition print (text : string) (io : console) : console :=
  {| stdin := stdin io; stdout := stdout io ++ [text +:+ newline] |}.

(** [input(prompt)] *)
Definition input (prompt : string) (io : console) : result (string * console) :=
  match stdin io with
  | [] => Raise EOFError
  | line :: rest => Ok (line, {| stdin := rest; stdout := stdout io ++ [prompt] |})
  end.

(** ** The interpreter *)

(** [create_ram(size)]: [[0] * size]; a size of zero or less gives the
    empty list. *)
Definition create_ram (size : Z) : list Z := replicate (Z.to_nat size) 0.

(** [parse_value(value, ram)] *)
Definition parse_value (value : string) (ram : list Z) : result Z :=
  if Py.contains "[" value && Py.contains "]" value
  then i ← Py.int (Py.strip_chars "[]" value); Py.getitem ram i
  else Py.int value.

(** [mov(instruction, ram)] *)
Definition mov (instruction : string) (ram : list Z) : result (list Z) :=
  match Py.split instruction with
  | [_; _; src] =>
      tok ← Py.getitem (Py.split instruction) 1;
      dest ← Py.int (Py.strip_chars "[]" tok);
      src ← parse_value src ram;
      Py.setitem ram dest src
  | _ => Raise ValueError
  end.

(** The common shape of [add], [sub] and [mul]: unpack four tokens, read
    the destination index, resolve both sources, store [op arg1 arg2]. *)
Definition arith (op : Z -> Z -> Z) (instruction : string) (ram : list Z)
  : result (list Z) :=
  match Py.split instruction with
  | [_; _; arg1; arg2] =>
      tok ← Py.getitem (Py.split instruction) 1;
      dest ← Py.int (Py.strip_chars "[]" tok);
      arg1 ← parse_value arg1 ram;
      arg2 ← parse_value arg2 ram;
      Py.setitem ram dest (op arg1 arg2)
  | _ => Raise ValueError
  end.

(** [add(instruction, ram)] *)
Definition add : string -> list Z -> result (list Z) := arith Z.add.

(** [sub(instruction, ram)] *)
Definition sub : string -> list Z -> result (list Z) := arith Z.sub.

(** [mul(instruction, ram)] *)
Definition mul : string -> list Z -> result (list Z) := arith Z.mul.

(** The common shape of [div] and [mod]: as [arith], but a zero second
    source prints a message and returns before the store. *)
Definition arith_nonzero (op : Z -> Z -> Z) (instruction : string)
    (ram : list Z) (io : console) : result (list Z * console) :=
  match Py.split instruction with
  | [_; _; arg1; arg2] =>
      tok ← Py.getitem (Py.split instruction) 1;
      dest ← Py.int (Py.strip_chars "[]" tok);
      arg1 ← parse_value arg1 ram;
      arg2 ← parse_value arg2 ram;
      if arg2 =? 0
      then Ok (ram, print "Division by zero error" io)
      else ram' ← Py.setitem ram dest (op arg1 arg2); Ok (ram', io)
  | _ => Raise ValueError
  end.

(** [div(instruction, ram)] *)
Definition div : string -> list Z -> console -> result (list Z * console) :=
  arith_nonzero Z.div.

(** [mod(instruction, ram)] *)
Definition mod_ : string -> list Z -> console -> result (list Z * console) :=
  arith_nonzero Z.modulo.

(** The dictionary [flags], whose keys are always ['less'], ['equal'] and
    ['greater']. *)
Record Flags : Type := mkFlags {
  less : bool;
  equal : bool;
  greater : bool
}.

(** [jmp(instruction, ram, ic, flags)]; the result is the new [ic[0]]. *)
Definition jmp (instruction : string) (ram : list Z) (ic : Z) (flags : Flags)
  : result Z :=
  tok ← Py.getitem (Py.split instruction) 1;
  location ← parse_value tok ram;
  if String.eqb (Py.slice_to 2 instruction) "JL" then
    if less flags then Ok location else Ok (ic + 1)
  else if String.eqb (Py.slice_to 2 instruction) "JG" then
    if greater flags then Ok location else Ok (ic + 1)
  else if String.eqb (Py.slice_to 3 instruction) "JLE" then
    if less flags || equal flags then Ok location else Ok (ic + 1)
  else if String.eqb (Py.slice_to 3 instruction) "JGE" then
    if greater flags || equal flags then Ok location else Ok (ic + 1)
  else if String.eqb (Py.slice_to 2 instruction) "JE" then
    if equal flags then Ok location else Ok (ic + 1)
  else if String.eqb (Py.slice_to 3 instruction) "JNE" then
    if negb (equal flags) then Ok location else Ok (ic + 1)
  else Ok location.

(** [cmp(instruction, ram, flags)]; the result is the dictionary after
    the assignments. *)
Definition cmp (instruction : string) (ram : list Z) (flags : Flags)
  : result Flags :=
  match Py.split instruction with
  | [_; arg1; arg2] =>
      arg1 ← parse_value arg1 ram;
      arg2 ← parse_value arg2 ram;
      if arg1 <? arg2 then
        Ok {| less := true; equal := false; greater := greater flags |}
      else if arg1 >? arg2 then
        Ok {| less := false; equal := false; greater := greater flags |}
      else
        Ok {| less := false; equal := true; greater := greater flags |}
  | _ => Raise ValueError
  end.

(** [interrupt(instruction, ram)] *)
Definition interrupt (instruction : string) (ram : list Z) (io : console)
  : result (list Z * console) :=
  let split_instruction := Py.split instruction in
  if Py.contains "print" (Py.lower instruction) then
    tok ← Py.getitem split_instruction 2;
    if Py.contains "[" tok then
      i ← Py.int (Py.strip_chars "[]" tok);
      v ← Py.getitem ram i;
      Ok (ram, print (Py.str v) io)
    else
      Ok (ram, print (Py.join " " (drop 2 split_instruction)) io)
  else
    '(line, io') ← input ">> " io;
    input2 ← Py.int line;
    tok ← Py.getitem split_instruction 2;
    dest ← Py.int (Py.strip_chars "[]" tok);
    ram' ← Py.setitem ram dest input2;
    Ok (ram', io').

(** [hlt(ic)]; the result is the new [ic[0]]. *)
Definition hlt (ic : Z) : Z := -2.

(** [nop(instruction, ram)] *)
Definition nop (instruction : string) (ram : list Z) : list Z := ram.

(** The objects one run of [run_program] mutates. *)
Record machine : Type := Machine {
  ic : Z;
  flags : Flags;
  ram : list Z;
  io : console
}.

(** What one pass through the body of the [while] loop leads to. *)
Inductive step : Type :=
| Next (m : machine)        (* the loop condition is tested again *)
| Return (m : machine)      (* the [return] after [hlt] *)
| Uncaught (e : exn).

(** The dispatch chain of the loop body; the boolean is [jump_flag] as
    the chain leaves it. The right injection is the [return] of the [HLT]
    case. *)
Definition dispatch (instruction : string) (m : machine)
  : result (machine * bool + machine) :=
  if String.eqb instruction "" then Ok (inl (m, false))
  else
    opcode ← Py.getitem (Py.split instruction) 0;
    if String.eqb opcode "MOV" then
      ram' ← mov instruction (ram m);
      Ok (inl (Machine (ic m) (flags m) ram' (io m), false))
    else if String.eqb opcode "ADD" then
      ram' ← add instruction (ram m);
      Ok (inl (Machine (ic m) (flags m) ram' (io m), false))
    else if String.eqb opcode "SUB" then
      ram' ← sub instruction (ram m);
      Ok (inl (Machine (ic m) (flags m) ram' (io m), false))
    else if String.eqb opcode "MUL" then
      ram' ← mul instruction (ram m);
      Ok (inl (Machine (ic m) (flags m) ram' (io m), false))
    else if String.eqb opcode "DIV" then
      '(ram', io') ← div instruction (ram m) (io m);
      Ok (inl (Machine (ic m) (flags m) ram' io', false))
    else if String.eqb opcode "MOD" then
      '(ram', io') ← mod_ instruction (ram m) (io m);
      Ok (inl (Machine (ic m) (flags m) ram' io', false))
    else if Py.contains "J" opcode then
      ic' ← jmp instruction (ram m) (ic m) (flags m);
      Ok (inl (Machine ic' (flags m) (ram m) (io m), true))
    else if String.eqb opcode "CMP" then
      flags' ← cmp instruction (ram m) (flags m);
      Ok (inl (Machine (ic m) flags' (ram m) (io m), false))
    else if String.eqb opcode "HLT" then
      Ok (inr (Machine (hlt (ic m)) (flags m) (ram m) (io m)))
    else if String.eqb opcode "INT" then
      '(ram', io') ← interrupt instruction (ram m) (io m);
      Ok (inl (Machine (ic m) (flags m) ram' io', false))
    else
      Ok (inl (Machine (ic m) (flags m) (ram m)
                 (print ("Invalid instruction: " +:+ instruction) (io m)),
               false)).

(** The body of the [while] loop, entered with [jump_flag] false (it is
    false initially and every pass that sets it resets it). *)
Definition loop_body (program : list string) (m : machine) : step :=
  match Py.getitem program (ic m) with
  | Raise e => Uncaught e
  | Ok line =>
      let instruction := Py.strip line in
      match dispatch instruction m with
      | Raise e => Uncaught e
      | Ok (inr m') => Return m'
      | Ok (inl (m', jump_flag)) =>
          if negb jump_flag
          then Next (Machine (ic m' + 1) (flags m') (ram m') (io m'))
          else Next m'
      end
  end.

(** The test of the [while] loop. *)
Definition loop_test (program : list string) (m : machine) : bool :=
  ic m <? Z.of_nat (length program).

(** How a run ends. *)
Inductive outcome : Type :=
| Completed (m : machine)   (* the loop test failed *)
| Halted (m : machine)      (* [HLT] returned *)
| Crashed (e : exn).

(** The [while] loop, for at most [fuel] passes; [None] when the fuel
    runs out first. *)
Fixpoint run_loop (fuel : nat) (program : list string) (m : machine)
  : option outcome :=
  match fuel with
  | O => None
  | S fuel' =>
      if loop_test program m then
        match loop_body program m with
        | Next m' => run_loop fuel' program m'
        | Return m' => Some (Halted m')
        | Uncaught e => Some (Crashed e)
        end
      else Some (Completed m)
  end.

(** The state [run_program] starts the loop in. *)
Definition initial_flags : Flags :=
  {| less := false; equal := false; greater := false |}.

Definition initial (ram : list Z) (io : console) : machine :=
  {| ic := 0; flags := initial_flags; ram := ram; io := io |}.

(** [run_program(program, ram)] *)
Definition run_program (fuel : nat) (program : list string) (ram : list Z)
    (io : console) : option outcome :=
  run_loop fuel program (initial ram io).

(** ** Runs *)

(** [run_via program P m m']: the loop, entered in state [m], is about to
    test its condition in state [m'], and every pass made on the way
    started in a state satisfying [P]. *)
Inductive run_via (program : list string) (P : machine -> Prop)
  : machine -> machine -> Prop :=
| run_via_here m : run_via program P m m
| run_via_pass m m1 m2 :
    run_via program P m m1 ->
    P m1 ->
    loop_test program m1 = true ->
    loop_body program m1 = Next m2 ->
    run_via program P m m2.

(** The opcode of the instruction the next pass fetches. *)
Definition opcode_at (program : list string) (m : machine) : option string :=
  match Py.getitem program (ic m) with
  | Ok line => head (Py.split (Py.strip line))
  | Raise _ => None
  end.

(** The next pass does not run [cmp]. *)
Definition no_cmp (program : list string) (m : machine) : Prop :=
  opcode_at program m <> Some "CMP".

(** If the next pass runs [jmp], the address its operand resolves to is
    not negative. *)
Definition target_nonneg (program : list string) (m : machine) : Prop :=
  forall line opcode tok rest loc,
    Py.getitem program (ic m) = Ok line ->
    Py.split (Py.strip line) = opcode :: tok :: rest ->
    Py.contains "J" opcode = true ->
    parse_value tok (ram m) = Ok loc ->
    0 <= loc.

(** The test [jmp] makes on the flags for [instruction], read off its
    chain of prefix tests. *)
Definition branch_condition (instruction : string) (flags : Flags) : bool :=
  if String.eqb (Py.slice_to 2 instruction) "JL" then less flags
  else if String.eqb (Py.slice_to 2 instruction) "JG" then greater flags
  else if String.eqb (Py.slice_to 3 instruction) "JLE" then
    less flags || equal flags
  else if String.eqb (Py.slice_to 3 instruction) "JGE" then
    greater flags || equal flags
  else if String.eqb (Py.slice_to 2 instruction) "JE" then equal flags
  else if String.eqb (Py.slice_to 3 instruction) "JNE" then negb (equal flags)
  else true.

(** A string starts a token when it is not empty and does not begin with
    whitespace. *)
Definition starts_token (s : string) : Prop :=
  match s with
  | EmptyString => False
  | String c _ => Py.isspace c = false
  end.

(** The three shapes a pass that reaches the loop test again can have. *)
Inductive pass_shape (program : list string) (m m' : machine) : Prop :=
| pass_plain :
    ic m' = ic m + 1 ->
    flags m' = flags m ->
    opcode_at program m <> Some "CMP" ->
    pass_shape program m m'
| pass_cmp :
    opcode_at program m = Some "CMP" ->
    ic m' = ic m + 1 ->
    greater (flags m') = greater (flags m) ->
    ram m' = ram m ->
    pass_shape program m m'
| pass_jump line opcode tok rest loc :
    Py.getitem program (ic m) = Ok line ->
    Py.split (Py.strip line) = opcode :: tok :: rest ->
    Py.contains "J" opcode = true ->
    parse_value tok (ram m) = Ok loc ->
    ic m' = (if branch_condition (Py.strip line) (flags m)
             then loc else ic m + 1) ->
    flags m' = flags m ->
    pass_shape program m m'.

(** The opcodes whose handlers store into Memory. *)
Definition stores (opcode : string) : Prop :=
  opcode = "MOV" \/ opcode = "ADD" \/ opcode = "SUB" \/ opcode = "MUL" \/
  opcode = "DIV" \/ opcode = "MOD" \/ opcode = "INT".

(** The state a run that did not crash ends in. *)
Definition final_state (o : outcome) : option machine :=
  match o with
  | Completed m | Halted m => Some m
  | Crashed _ => None
  end.

(** [io'] is [io] after some reading and writing: lines were taken from
    the front of the input, chunks were added at the end of the output. *)
Definition console_extends (io io' : console) : Prop :=
  (exists used : list string, stdin io = (used ++ stdin io')%list) /\
  (exists out : list string, stdout io' = (stdout io ++ out)%list).

(** The next pass does not run a handler that stores into Memory. *)
Definition no_store (program : list string) (m : machine) : Prop :=
  forall opcode, opcode_at program m = Some opcode -> ~ stores opcode.

(** The line is not routed to [jmp]: it is blank or its opcode has no
    [J] in it. *)
Definition jump_free (line : string) : bool :=
  match head (Py.split (Py.strip line)) with
  | Some opcode => negb (Py.contains "J" opcode)
  | None => true
  end.

(** ** Reading the program and the entry point *)

(** [f.readlines()] on the text of a file, as the text layer delivers it
    (decoded, line ends already translated to a newline character): the
    lines, each with its newline; a last line without one is kept. *)
Fixpoint readlines_go (cur : string) (text : string) : list string :=
  match text with
  | EmptyString => if Py.is_empty cur then [] else [cur]
  | String c text' =>
      if Ascii.eqb c "010"
      then (cur +:+ String c EmptyString) :: readlines_go EmptyString text'
      else readlines_go (cur +:+ String c EmptyString) text'
  end.

Definition readlines (text : string) : list string :=
  readlines_go EmptyString text.

(** [read_program(filename)], over the files that can be opened: [files]
    gives the text of a file, or [None] when [open] raises. *)
Definition read_program (files : string -> option string) (filename : string)
  : option (list string) :=
  readlines <$> files filename.

(** How the script ends. *)
Inductive main_end : Type :=
| Finished (io : console)   (* the last [print] was reached *)
| Died (e : exn)            (* an exception of [exn] was not caught *)
| OpenFailed.               (* [open] raised *)

(** The body under [if __name__ == "__main__"]. *)
Definition main (files : string -> option string) (fuel : nat)
    (io0 : console) : option main_end :=
  match input "Enter program filename: " io0 with
  | Raise e => Some (Died e)
  | Ok (user_file, io1) =>
      match
        file_name ← Py.getitem (Py.split user_file) 0;
        size ← Py.getitem (Py.split user_file) 1;
        n ← Py.int size;
        Ok (file_name, create_ram n)
      with
      | Raise e => Some (Died e)
      | Ok (file_name, ram) =>
          match read_program files file_name with
          | None => Some OpenFailed
          | Some program =>
              match run_program fuel program ram io1 with
              | None => None
              | Some (Crashed e) => Some (Died e)
              | Some (Completed m) | Some (Halted m) =>
                  Some (Finished (print "Program execution complete" (io m)))
              end
          end
      end
  end.

(** * Properties *)

(** ** Strings *)

Section Strings.

Implicit Types (s cur t : string) (p : ascii -> bool).

Lemma app_String c s t : String c s +:+ t = String c (s +:+ t).
Proof. reflexivity. Qed.

Lemma app_cons_assoc cur c s :
  (cur +:+ String c EmptyString) +:+ s = cur +:+ String c s.
Proof.
  induction cur as [|d cur IH]; [done |].
  by rewrite !app_String, IH.
Qed.

Lemma split_go_prefix s : forall cur t r,
  Py.split_go cur s = t :: r ->
  Py.is_empty cur = false \/ starts_token s ->
  exists rest, cur +:+ s = t +:+ rest.
Proof.
  induction s as [|c s IH]; intros cur t r Hsplit Hstart; simpl in Hsplit.
  - destruct (Py.is_empty cur) eqn:Hcur; [done |].
    injection Hsplit as <- _. by exists EmptyString.
  - destruct (Py.isspace c) eqn:Hc.
    + destruct (Py.is_empty cur) eqn:Hcur.
      * destruct Hstart as [? | Hstart]; [done |]. simpl in Hstart. congruence.
      * injection Hsplit as <- _. by exists (String c s).
    + destruct (IH _ _ _ Hsplit) as [rest Hrest].
      * left. by destruct cur.
      * exists rest. by rewrite <- Hrest, app_cons_assoc.
Qed.

Lemma lstrip_by_starts p s :
  Py.lstrip_by p s = EmptyString \/
  exists c s', Py.lstrip_by p s = String c s' /\ p c = false.
Proof.
  induction s as [|c s IH]; simpl; [by left |].
  destruct (p c) eqn:Hc; [done |]. right. by exists c, s.
Qed.

Lemma strip_starts line :
  Py.strip line = EmptyString \/ starts_token (Py.strip line).
Proof.
  unfold Py.strip.
  destruct (lstrip_by_starts Py.isspace line) as [-> | (c & s' & -> & Hc)].
  - by left.
  - right. simpl. by rewrite Hc.
Qed.

(** The opcode is how the stripped instruction begins. *)
Lemma opcode_prefix line opcode toks :
  Py.split (Py.strip line) = opcode :: toks ->
  exists rest, Py.strip line = opcode +:+ rest.
Proof.
  intros Hsplit. destruct (strip_starts line) as [Hempty | Hstart].
  - by rewrite Hempty in Hsplit.
  - destruct (split_go_prefix _ _ _ _ Hsplit) as [rest Hrest]; [by right |].
    by exists rest.
Qed.

Lemma split_nonempty s t r :
  Py.split s = t :: r -> String.eqb s "" = false.
Proof. by destruct s. Qed.

End Strings.

(** ** Subscripts *)

Section Subscripts.

Context {A : Type}.
Implicit Types (l : list A) (i : Z).

Lemma position_in_range (n : nat) i :
  0 <= i < Z.of_nat n -> Py.position n i = Some (Z.to_nat i).
Proof.
  intros Hi. unfold Py.position.
  destruct (Z.ltb_spec i 0); [lia |].
  destruct (Z.leb_spec 0 i); [| lia].
  destruct (Z.ltb_spec i (Z.of_nat n)); [done | lia].
Qed.

Lemma position_from_end (n : nat) i :
  - Z.of_nat n <= i < 0 -> Py.position n i = Some (Z.to_nat (i + Z.of_nat n)).
Proof.
  intros Hi. unfold Py.position.
  destruct (Z.ltb_spec i 0); [| lia].
  destruct (Z.leb_spec 0 (i + Z.of_nat n)); [| lia].
  destruct (Z.ltb_spec (i + Z.of_nat n) (Z.of_nat n)); [done | lia].
Qed.

Lemma position_outside (n : nat) i :
  i < - Z.of_nat n \/ Z.of_nat n <= i -> Py.position n i = None.
Proof.
  intros Hi. unfold Py.position.
  destruct (Z.ltb_spec i 0).
  - destruct (Z.leb_spec 0 (i + Z.of_nat n)); [| done].
    destruct (Z.ltb_spec (i + Z.of_nat n) (Z.of_nat n)); [lia | done].
  - destruct (Z.leb_spec 0 i); [| done].
    destruct (Z.ltb_spec i (Z.of_nat n)); [lia | done].
Qed.

Lemma getitem_lookup l i (x : A) :
  0 <= i -> l !! Z.to_nat i = Some x -> Py.getitem l i = Ok x.
Proof.
  intros Hi Hx. unfold Py.getitem.
  rewrite position_in_range, Hx; [done |].
  apply lookup_lt_Some in Hx. lia.
Qed.

Lemma getitem_0 (x : A) l : Py.getitem (x :: l) 0 = Ok x.
Proof. by apply getitem_lookup. Qed.

Lemma getitem_1 (x y : A) l : Py.getitem (x :: y :: l) 1 = Ok y.
Proof. by apply getitem_lookup. Qed.

Lemma getitem_2 (x y z : A) l : Py.getitem (x :: y :: z :: l) 2 = Ok z.
Proof. by apply getitem_lookup. Qed.

(** A subscript that is out of range on either side raises. *)
Lemma getitem_outside l i :
  i < - Z.of_nat (length l) \/ Z.of_nat (length l) <= i ->
  Py.getitem l i = Raise IndexError.
Proof. intros Hi. unfold Py.getitem. by rewrite position_outside. Qed.

(** A negative subscript in range counts from the end. *)
Lemma getitem_from_end l i :
  - Z.of_nat (length l) <= i < 0 ->
  Py.getitem l i = Py.getitem l (i + Z.of_nat (length l)).
Proof.
  intros Hi. unfold Py.getitem.
  rewrite position_from_end, position_in_range by lia. done.
Qed.

Lemma setitem_in_range l i (x : A) :
  0 <= i < Z.of_nat (length l) ->
  Py.setitem l i x = Ok (<[Z.to_nat i := x]> l).
Proof. intros Hi. unfold Py.setitem. by rewrite position_in_range. Qed.

End Subscripts.

(** ** One pass of the loop *)

Lemma bind_Ok {A B : Type} (a : A) (f : A -> result B) : Ok a ≫= f = f a.
Proof. reflexivity. Qed.

Lemma bind_Raise {A B : Type} (e : exn) (f : A -> result B) :
  Raise e ≫= f = Raise e.
Proof. reflexivity. Qed.

(** An opcode with a [J] in it is none of the six tested before [J]. *)
Lemma jump_opcode_not_arith opcode :
  Py.contains "J" opcode = true ->
  String.eqb opcode "MOV" = false /\ String.eqb opcode "ADD" = false /\
  String.eqb opcode "SUB" = false /\ String.eqb opcode "MUL" = false /\
  String.eqb opcode "DIV" = false /\ String.eqb opcode "MOD" = false.
Proof.
  intros HJ.
  repeat split; apply String.eqb_neq; intros ->; by vm_compute in HJ.
Qed.

(** What [jmp] returns once its operand has resolved. *)
Lemma jmp_resolved instruction opcode tok rest ram ic flags loc :
  Py.split instruction = opcode :: tok :: rest ->
  parse_value tok ram = Ok loc ->
  jmp instruction ram ic flags =
    Ok (if branch_condition instruction flags then loc else ic + 1).
Proof.
  intros Hsplit Hloc. unfold jmp, branch_condition.
  rewrite Hsplit, getitem_1, bind_Ok, Hloc, bind_Ok.
  repeat (match goal with |- context [String.eqb ?a ?b] =>
            destruct (String.eqb a b) end; [by destruct flags as [[] [] []] |]).
  done.
Qed.

(** The pass that runs [jmp]. *)
Lemma loop_body_jump program m line opcode tok rest loc :
  Py.getitem program (ic m) = Ok line ->
  Py.split (Py.strip line) = opcode :: tok :: rest ->
  Py.contains "J" opcode = true ->
  parse_value tok (ram m) = Ok loc ->
  loop_body program m =
    Next {| ic := if branch_condition (Py.strip line) (flags m)
                  then loc else ic m + 1;
            flags := flags m; ram := ram m; io := io m |}.
Proof.
  intros Hfetch Hsplit HJ Hloc. unfold loop_body, dispatch.
  rewrite Hfetch, (split_nonempty _ _ _ Hsplit), Hsplit, getitem_0, bind_Ok.
  destruct (jump_opcode_not_arith _ HJ) as (-> & -> & -> & -> & -> & ->).
  rewrite HJ, (jmp_resolved _ _ _ _ _ _ _ _ Hsplit Hloc).
  reflexivity.
Qed.

Lemma cmp_greater instruction ram flags flags' :
  cmp instruction ram flags = Ok flags' -> greater flags' = greater flags.
Proof.
  unfold cmp. intros H.
  destruct (Py.split instruction) as [|? [|a1 [|a2 [|? ?]]]]; try done.
  destruct (parse_value a1 ram) as [v1|]; [|done].
  destruct (parse_value a2 ram) as [v2|]; [|done].
  rewrite !bind_Ok in H.
  destruct (v1 <? v2); [by injection H as <- |].
  destruct (v1 >? v2); by injection H as <-.
Qed.

(** A handler that returns the new [ram]. *)
Local Ltac pass_of_ram Hd H Hop :=
  match type of Hd with
  | ?h ≫= _ = _ => destruct h as [? | ?]; [rewrite bind_Ok in Hd | done]
  end;
  injection Hd as <- <-; injection H as <-;
  apply pass_plain; [done | done | by rewrite Hop].

(** A handler that returns the new [ram] and console. *)
Local Ltac pass_of_ram_io Hd H Hop :=
  match type of Hd with
  | ?h ≫= _ = _ => destruct h as [[? ?] | ?]; [rewrite bind_Ok in Hd | done]
  end;
  injection Hd as <- <-; injection H as <-;
  apply pass_plain; [done | done | by rewrite Hop].

Lemma loop_body_shape program m m' :
  loop_body program m = Next m' -> pass_shape program m m'.
Proof.
  unfold loop_body. intros H.
  destruct (Py.getitem program (ic m)) as [line|] eqn:Hfetch; [|done].
  destruct (dispatch (Py.strip line) m) as [[[m1 jf]|m1]|e] eqn:Hd; try done.
  assert (Hop : opcode_at program m = head (Py.split (Py.strip line)))
    by (unfold opcode_at; by rewrite Hfetch).
  unfold dispatch in Hd.
  destruct (String.eqb (Py.strip line) "") eqn:He.
  { apply String.eqb_eq in He. rewrite He in Hop.
    injection Hd as <- <-. injection H as <-.
    apply pass_plain; [done | done | by rewrite Hop]. }
  destruct (Py.split (Py.strip line)) as [|opcode toks] eqn:Hsplit; [done|].
  rewrite getitem_0, bind_Ok in Hd. simpl in Hop.
  destruct (String.eqb_spec opcode "MOV") as [-> | _]; [pass_of_ram Hd H Hop |].
  destruct (String.eqb_spec opcode "ADD") as [-> | _]; [pass_of_ram Hd H Hop |].
  destruct (String.eqb_spec opcode "SUB") as [-> | _]; [pass_of_ram Hd H Hop |].
  destruct (String.eqb_spec opcode "MUL") as [-> | _]; [pass_of_ram Hd H Hop |].
  destruct (String.eqb_spec opcode "DIV") as [-> | _];
    [pass_of_ram_io Hd H Hop |].
  destruct (String.eqb_spec opcode "MOD") as [-> | _];
    [pass_of_ram_io Hd H Hop |].
  destruct (Py.contains "J" opcode) eqn:HJ.
  { destruct toks as [|tok rest].
    { unfold jmp in Hd. by rewrite Hsplit in Hd. }
    destruct (parse_value tok (ram m)) as [loc|] eqn:Hloc.
    - rewrite (jmp_resolved _ _ _ _ _ _ _ _ Hsplit Hloc), bind_Ok in Hd.
      injection Hd as <- <-. injection H as <-.
      by eapply pass_jump.
    - unfold jmp in Hd.
      by rewrite Hsplit, getitem_1, bind_Ok, Hloc in Hd. }
  destruct (String.eqb_spec opcode "CMP") as [-> | Hcmp].
  { destruct (cmp _ _ _) as [fl|] eqn:Hfl; [rewrite bind_Ok in Hd | done].
    injection Hd as <- <-. injection H as <-.
    apply pass_cmp; [done | done | by apply cmp_greater in Hfl | done]. }
  destruct (String.eqb_spec opcode "HLT") as [-> | _]; [done |].
  destruct (String.eqb_spec opcode "INT") as [-> | _];
    [pass_of_ram_io Hd H Hop |].
  injection Hd as <- <-. injection H as <-.
  apply pass_plain; [done | done | rewrite Hop; congruence].
Qed.

(** [branch_condition] by opcode. [JLE] and [JGE] are caught by the tests
    for the prefixes [JL] and [JG], which come first in the chain. *)
Lemma branch_condition_table line opcode toks fl :
  Py.split (Py.strip line) = opcode :: toks ->
  (opcode = "JMP" -> branch_condition (Py.strip line) fl = true) /\
  (opcode = "JL" -> branch_condition (Py.strip line) fl = less fl) /\
  (opcode = "JG" -> branch_condition (Py.strip line) fl = greater fl) /\
  (opcode = "JLE" -> branch_condition (Py.strip line) fl = less fl) /\
  (opcode = "JGE" -> branch_condition (Py.strip line) fl = greater fl) /\
  (opcode = "JE" -> branch_condition (Py.strip line) fl = equal fl) /\
  (opcode = "JNE" -> branch_condition (Py.strip line) fl = negb (equal fl)).
Proof.
  intros Hsplit. destruct (opcode_prefix _ _ _ Hsplit) as [rest ->].
  repeat split; intros ->; by destruct rest.
Qed.

(** ** Invariants of a run *)

Section Runs.

Variable program : list string.
Variables (ram0 : list Z) (io0 : console).

(** No pass writes ['greater']: it is false throughout every run. *)
Lemma greater_stays_false P m :
  run_via program P (initial ram0 io0) m -> greater (flags m) = false.
Proof.
  intros Hrun. remember (initial ram0 io0) as m0 eqn:Hm0.
  induction Hrun as [m | m m1 m2 _ IH _ _ Hbody]; [by subst |].
  specialize (IH Hm0).
  destruct (loop_body_shape _ _ _ Hbody)
    as [_ Hfl _ | _ _ Hgr _ | ? ? ? ? ? _ _ _ _ _ Hfl]; congruence.
Qed.

(** Until a pass runs [cmp], the flags are the initial ones. *)
Lemma flags_initial_before_cmp m :
  run_via program (no_cmp program) (initial ram0 io0) m ->
  flags m = initial_flags.
Proof.
  intros Hrun. remember (initial ram0 io0) as m0 eqn:Hm0.
  induction Hrun as [m | m m1 m2 _ IH Hno _ Hbody]; [by subst |].
  specialize (IH Hm0).
  destruct (loop_body_shape _ _ _ Hbody)
    as [_ Hfl _ | Hop _ _ _ | ? ? ? ? ? _ _ _ _ _ Hfl]; [congruence | | congruence].
  by destruct Hno.
Qed.

(** A pass leaves the counter non-negative unless it jumps to a negative
    address. *)
Lemma pass_keeps_ic_nonneg m m' :
  0 <= ic m ->
  target_nonneg program m ->
  loop_body program m = Next m' ->
  0 <= ic m'.
Proof.
  intros Hic Htarget Hbody.
  destruct (loop_body_shape _ _ _ Hbody)
    as [Hic' _ _ | _ Hic' _ _ | line opcode tok rest loc Hf Hs HJ Hloc Hic' _];
    [lia | lia |].
  specialize (Htarget _ _ _ _ _ Hf Hs HJ Hloc).
  destruct (branch_condition _ _); lia.
Qed.

Lemma ic_nonneg_via_targets m :
  run_via program (target_nonneg program) (initial ram0 io0) m -> 0 <= ic m.
Proof.
  intros Hrun. remember (initial ram0 io0) as m0 eqn:Hm0.
  induction Hrun as [m | m m1 m2 _ IH Htarget _ Hbody]; [by subst |].
  eapply pass_keeps_ic_nonneg; eauto.
Qed.

End Runs.

(** * The flags after [CMP] *)

(** C1. After [CMP a b] with [a > b] the claim wants ['greater'] true
    and exactly one flag set. [cmp] assigns ['less'] and ['equal'] only:
    run at the start of a program on [CMP 2 1], it leaves all three flags
    false, and so does the whole one-line program. *)
Theorem C1_cmp_leaves_greater_false :
  cmp "CMP 2 1" [] initial_flags
    = Ok {| less := false; equal := false; greater := false |} /\
  run_program 2 ["CMP 2 1"] [] (Console [] [])
    = Some (Completed
              {| ic := 1;
                 flags := {| less := false; equal := false; greater := false |};
                 ram := [];
                 io := Console [] [] |}).
Proof. split; reflexivity. Qed.

(** * Branches *)

(** C2. With ['equal'] set and ['less'] clear (the flags [CMP 1 1]
    leaves), the claim wants [JLE 5] and [JGE 5] to branch to 5. [jmp]
    tests the two-letter prefixes [JL] and [JG] before [JLE] and [JGE], so
    both instructions are handled as [JL] and [JG] and fall through to
    [ic + 1]. *)
Theorem C2_jle_jge_handled_as_jl_jg :
  cmp "CMP 1 1" [] initial_flags
    = Ok {| less := false; equal := true; greater := false |} /\
  jmp "JLE 5" [] 0 {| less := false; equal := true; greater := false |} = Ok 1 /\
  jmp "JGE 5" [] 0 {| less := false; equal := true; greater := false |} = Ok 1.
Proof. repeat split; reflexivity. Qed.

(** C3. After [CMP 2 1] the claim wants [JG 5] to set the counter to 5.
    ['greater'] is still false, so the counter advances to 2 and the
    two-line program completes there. *)
Theorem C3_jg_after_greater_cmp_falls_through :
  run_program 3 ["CMP 2 1"; "JG 5"] [] (Console [] [])
    = Some (Completed
              {| ic := 2;
                 flags := {| less := false; equal := false; greater := false |};
                 ram := [];
                 io := Console [] [] |}).
Proof. reflexivity. Qed.

(** C7. With ['equal'] set, as [CMP 1 1] leaves it, the condition of
    [JLE] and of [JGE] holds, and the claim wants the counter set to the
    target 5. [jmp] handles both instructions by its [JL] and [JG] cases,
    whose tests fail, so the counter advances by one instead and each
    two-line program completes at 2. *)
Theorem C7_branch_with_condition_true_advances_by_one :
  run_program 3 ["CMP 1 1"; "JLE 5"] [] (Console [] [])
    = Some (Completed
              {| ic := 2;
                 flags := {| less := false; equal := true; greater := false |};
                 ram := [];
                 io := Console [] [] |}) /\
  run_program 3 ["CMP 1 1"; "JGE 5"] [] (Console [] [])
    = Some (Completed
              {| ic := 2;
                 flags := {| less := false; equal := true; greater := false |};
                 ram := [];
                 io := Console [] [] |}).
Proof. split; reflexivity. Qed.

(** C10. In a state reached from the start of a run by passes none of
    which ran [cmp], all three flags are false; a [JNE] fetched there
    sets the counter to its target, and a [JE], [JL], [JG], [JLE] or [JGE]
    advances it by one. *)
Theorem C10_branches_before_first_cmp program ram0 io0 m :
  run_via program (no_cmp program) (initial ram0 io0) m ->
  flags m = {| less := false; equal := false; greater := false |} /\
  forall line opcode tok rest loc,
    Py.getitem program (ic m) = Ok line ->
    Py.split (Py.strip line) = opcode :: tok :: rest ->
    parse_value tok (ram m) = Ok loc ->
    (opcode = "JNE" ->
     loop_body program m
       = Next {| ic := loc; flags := flags m; ram := ram m; io := io m |}) /\
    (opcode = "JE" \/ opcode = "JL" \/ opcode = "JG" \/
     opcode = "JLE" \/ opcode = "JGE" ->
     loop_body program m
       = Next {| ic := ic m + 1; flags := flags m; ram := ram m; io := io m |}).
Proof.
  intros Hrun. pose proof (flags_initial_before_cmp _ _ _ _ Hrun) as Hfl.
  split; [done |].
  intros line opcode tok rest loc Hfetch Hsplit Hloc.
  destruct (branch_condition_table line opcode (tok :: rest) (flags m) Hsplit)
    as (_ & HJL & HJG & HJLE & HJGE & HJE & HJNE).
  split.
  - intros Hop.
    rewrite (loop_body_jump _ _ _ _ _ _ loc Hfetch Hsplit); [| by subst | done].
    by rewrite (HJNE Hop), Hfl.
  - intros Hop.
    rewrite (loop_body_jump _ _ _ _ _ _ loc Hfetch Hsplit);
      [| by destruct Hop as [-> | [-> | [-> | [-> | ->]]]] | done].
    destruct Hop as [Hop | [Hop | [Hop | [Hop | Hop]]]];
      [rewrite (HJE Hop) | rewrite (HJL Hop) | rewrite (HJG Hop)
       | rewrite (HJLE Hop) | rewrite (HJGE Hop)];
      by rewrite Hfl.
Qed.

Lemma C10_branches_before_first_cmp_witness :
  let program := ["MOV [0] 3"; "JLE 0"; "JNE 9"] in
  let io := Console [] [] in
  loop_body program (Machine 1 initial_flags [3] io)
    = Next (Machine 2 initial_flags [3] io) /\
  loop_body program (Machine 2 initial_flags [3] io)
    = Next (Machine 9 initial_flags [3] io).
Proof.
  intros program io.
  assert (H1 : run_via program (no_cmp program) (initial [0] io)
                 (Machine 1 initial_flags [3] io)).
  { apply (run_via_pass _ _ _ (initial [0] io)); [apply run_via_here | | | ];
      [by vm_compute | reflexivity | reflexivity]. }
  assert (H2 : run_via program (no_cmp program) (initial [0] io)
                 (Machine 2 initial_flags [3] io)).
  { apply (run_via_pass _ _ _ (Machine 1 initial_flags [3] io)); [exact H1 | | | ];
      [by vm_compute | reflexivity | reflexivity]. }
  split.
  - destruct (C10_branches_before_first_cmp program [0] io _ H1) as [_ Hbr].
    destruct (Hbr "JLE 0" "JLE" "0" [] 0 eq_refl eq_refl eq_refl) as [_ Hskip].
    apply Hskip. by do 3 right; left.
  - destruct (C10_branches_before_first_cmp program [0] io _ H2) as [_ Hbr].
    destruct (Hbr "JNE 9" "JNE" "9" [] 9 eq_refl eq_refl eq_refl) as [Htaken _].
    by apply Htaken.
Defined.

(** * The instruction counter at fetch time *)

(** C4, as stated, fails: [JMP -1] sets the counter to -1, the loop test
    [ic < len(program)] still holds, and the next fetch reads the last
    line of the program. *)
Lemma C4_negative_counter_is_fetched :
  exists m,
    run_via ["JMP -1"; "HLT"] (fun _ => True) (initial [] (Console [] [])) m /\
    loop_test ["JMP -1"; "HLT"] m = true /\
    ~ (0 <= ic m < Z.of_nat (length ["JMP -1"; "HLT"])) /\
    Py.getitem ["JMP -1"; "HLT"] (ic m) = Ok "HLT".
Proof.
  exists (Machine (-1) initial_flags [] (Console [] [])). split; [| split; [| split]].
  - apply (run_via_pass _ _ _ (initial [] (Console [] [])));
      [apply run_via_here | done | reflexivity | reflexivity].
  - reflexivity.
  - simpl. lia.
  - reflexivity.
Qed.

(** C4, amended. In a run in which every pass that ran [jmp] resolved its
    operand to a non-negative address, whenever the loop test holds the
    counter satisfies [0 <= ic < len(program)], and the fetch reads the
    line at that position. *)
Theorem C4_counter_in_range_at_fetch program ram0 io0 m :
  run_via program (target_nonneg program) (initial ram0 io0) m ->
  loop_test program m = true ->
  0 <= ic m < Z.of_nat (length program) /\
  exists line,
    program !! Z.to_nat (ic m) = Some line /\
    Py.getitem program (ic m) = Ok line.
Proof.
  intros Hrun Htest.
  pose proof (ic_nonneg_via_targets _ _ _ _ Hrun) as Hlo.
  unfold loop_test in Htest. apply Z.ltb_lt in Htest.
  split; [lia |].
  destruct (lookup_lt_is_Some_2 program (Z.to_nat (ic m))) as [line Hline]; [lia |].
  exists line. split; [done |]. by apply getitem_lookup.
Qed.

Lemma C4_counter_in_range_at_fetch_witness :
  let program := ["JMP 2"; "MOV [0] 1"; "HLT"] in
  let m := Machine 2 initial_flags [0] (Console [] []) in
  0 <= ic m < Z.of_nat (length program) /\
  exists line,
    program !! Z.to_nat (ic m) = Some line /\
    Py.getitem program (ic m) = Ok line.
Proof.
  intros program m.
  apply (C4_counter_in_range_at_fetch program [0] (Console [] []) m);
    [| reflexivity].
  apply (run_via_pass _ _ _ (initial [0] (Console [] [])));
    [apply run_via_here | | reflexivity | reflexivity].
  intros line opcode tok rest loc Hfetch Hsplit _ Hloc.
  vm_compute in Hfetch. injection Hfetch as <-.
  vm_compute in Hsplit. injection Hsplit as <- <- <-.
  vm_compute in Hloc. injection Hloc as <-. lia.
Defined.

(** * Operand resolution *)

(** C5, as stated, fails: the bracketed token [[-1]] resolves to the
    negative index -1 and yields the last cell of Memory. *)
Lemma C5_negative_index_yields_a_value :
  Py.int (Py.strip_chars "[]" "[-1]") = Ok (-1) /\
  parse_value "[-1]" [10; 20; 30] = Ok 30.
Proof. split; reflexivity. Qed.

(** C5, amended. For a bracketed token whose inner text parses to the
    index [i]: resolution raises [IndexError] whenever [i] is at or beyond
    the Memory size or below minus the Memory size, and for [i] in
    [0, size) it yields the cell at [i]. *)
Theorem C5_indirect_operand_bounds value ram i :
  Py.contains "[" value = true ->
  Py.contains "]" value = true ->
  Py.int (Py.strip_chars "[]" value) = Ok i ->
  (i < - Z.of_nat (length ram) \/ Z.of_nat (length ram) <= i ->
   parse_value value ram = Raise IndexError) /\
  (0 <= i < Z.of_nat (length ram) ->
   exists v, ram !! Z.to_nat i = Some v /\ parse_value value ram = Ok v).
Proof.
  intros Hopen Hclose Hint. unfold parse_value.
  rewrite Hopen, Hclose, Hint, bind_Ok. simpl. split.
  - apply getitem_outside.
  - intros Hi.
    destruct (lookup_lt_is_Some_2 ram (Z.to_nat i)) as [v Hv]; [lia |].
    exists v. split; [done |]. apply getitem_lookup; [lia | done].
Qed.

Lemma C5_indirect_operand_bounds_witness :
  parse_value "[3]" [10; 20; 30] = Raise IndexError /\
  parse_value "[-4]" [10; 20; 30] = Raise IndexError /\
  exists v, [10; 20; 30] !! Z.to_nat 2 = Some v /\
            parse_value "[2]" [10; 20; 30] = Ok v.
Proof.
  split; [| split].
  - apply (C5_indirect_operand_bounds "[3]" [10; 20; 30] 3);
      [reflexivity | reflexivity | reflexivity | simpl; lia].
  - apply (C5_indirect_operand_bounds "[-4]" [10; 20; 30] (-4));
      [reflexivity | reflexivity | reflexivity | simpl; lia].
  - apply (C5_indirect_operand_bounds "[2]" [10; 20; 30] 2);
      [reflexivity | reflexivity | reflexivity | simpl; lia].
Defined.

(** * Data movement and arithmetic *)

(** C6. A pass that fetches a [DIV] or [MOD] instruction whose
    destination token parses, whose first source resolves and whose
    second source resolves to 0: the message is printed, Memory, flags
    and the pending input are unchanged, and the counter advances by
    one. *)
Theorem C6_zero_divisor_is_skipped program m line opcode dtok tok1 tok2 dest a :
  Py.getitem program (ic m) = Ok line ->
  Py.split (Py.strip line) = [opcode; dtok; tok1; tok2] ->
  opcode = "DIV" \/ opcode = "MOD" ->
  Py.int (Py.strip_chars "[]" dtok) = Ok dest ->
  parse_value tok1 (ram m) = Ok a ->
  parse_value tok2 (ram m) = Ok 0 ->
  loop_body program m
    = Next {| ic := ic m + 1;
              flags := flags m;
              ram := ram m;
              io := print "Division by zero error" (io m) |}.
Proof.
  intros Hfetch Hsplit Hop Hdest Ha Hzero. unfold loop_body, dispatch.
  rewrite Hfetch, (split_nonempty _ _ _ Hsplit), Hsplit, getitem_0, bind_Ok.
  destruct Hop as [-> | ->]; simpl String.eqb; cbv iota;
    unfold div, mod_, arith_nonzero;
    by rewrite Hsplit, getitem_1, bind_Ok, Hdest, bind_Ok, Ha, bind_Ok,
      Hzero, bind_Ok.
Qed.

Lemma C6_zero_divisor_is_skipped_witness :
  let io := Console [] [] in
  loop_body ["DIV [2] [0] [1]"; "HLT"] (Machine 0 initial_flags [10; 0; 5] io)
    = Next (Machine 1 initial_flags [10; 0; 5]
              (print "Division by zero error" io)) /\
  loop_body ["MOD [2] 7 0"] (Machine 0 initial_flags [10; 0; 5] io)
    = Next (Machine 1 initial_flags [10; 0; 5]
              (print "Division by zero error" io)).
Proof.
  intros io. split.
  - apply (C6_zero_divisor_is_skipped ["DIV [2] [0] [1]"; "HLT"]
             (Machine 0 initial_flags [10; 0; 5] io)
             "DIV [2] [0] [1]" "DIV" "[2]" "[0]" "[1]" 2 10);
      [reflexivity | reflexivity | by left | reflexivity | reflexivity
       | reflexivity].
  - apply (C6_zero_divisor_is_skipped ["MOD [2] 7 0"]
             (Machine 0 initial_flags [10; 0; 5] io)
             "MOD [2] 7 0" "MOD" "[2]" "7" "0" 2 7);
      [reflexivity | reflexivity | by right | reflexivity | reflexivity
       | reflexivity].
Defined.

(** C8. A pass that fetches [MOV dest src] with the destination index in
    [0, size) and a source that resolves to [v]: afterwards the cell at
    [dest] holds [v], every other cell and the size of Memory are as
    before, flags and console are unchanged and the counter has advanced
    by one. *)
Theorem C8_mov_writes_one_cell program m line dtok stok dest v :
  Py.getitem program (ic m) = Ok line ->
  Py.split (Py.strip line) = ["MOV"; dtok; stok] ->
  Py.int (Py.strip_chars "[]" dtok) = Ok dest ->
  0 <= dest < Z.of_nat (length (ram m)) ->
  parse_value stok (ram m) = Ok v ->
  exists m',
    loop_body program m = Next m' /\
    mov (Py.strip line) (ram m) = Ok (ram m') /\
    ram m' !! Z.to_nat dest = Some v /\
    (forall j, j <> Z.to_nat dest -> ram m' !! j = ram m !! j) /\
    length (ram m') = length (ram m) /\
    flags m' = flags m /\
    ic m' = ic m + 1 /\
    io m' = io m.
Proof.
  intros Hfetch Hsplit Hdest Hrange Hv.
  assert (Hmov : mov (Py.strip line) (ram m)
                 = Ok (<[Z.to_nat dest := v]> (ram m))).
  { unfold mov.
    by rewrite Hsplit, getitem_1, bind_Ok, Hdest, bind_Ok, Hv, bind_Ok,
      setitem_in_range. }
  exists {| ic := ic m + 1; flags := flags m;
            ram := <[Z.to_nat dest := v]> (ram m); io := io m |}.
  split.
  { unfold loop_body, dispatch.
    rewrite Hfetch, (split_nonempty _ _ _ Hsplit), Hsplit, getitem_0, bind_Ok.
    simpl String.eqb. cbv iota. by rewrite Hmov. }
  simpl. repeat split; [done | | | ].
  - apply list_lookup_insert_eq. lia.
  - intros j Hj. by apply list_lookup_insert_ne.
  - apply length_insert.
Qed.

Lemma C8_mov_writes_one_cell_witness :
  exists m',
    loop_body ["MOV [1] [0]"] (Machine 0 initial_flags [7; 0; 9] (Console [] []))
      = Next m' /\
    ram m' = [7; 7; 9] /\ ic m' = 1.
Proof.
  destruct (C8_mov_writes_one_cell ["MOV [1] [0]"]
              (Machine 0 initial_flags [7; 0; 9] (Console [] []))
              "MOV [1] [0]" "[1]" "[0]" 1 7)
    as (m' & Hbody & Hmov & _ & _ & _ & _ & Hic & _);
    [reflexivity | reflexivity | reflexivity | simpl; lia | reflexivity |].
  exists m'. split; [exact Hbody |]. split; [| exact Hic].
  assert (Hram : Ok (ram m') = Ok [7; 7; 9]) by (rewrite <- Hmov; reflexivity).
  by injection Hram.
Defined.

(** * Halting *)

(** C9. A pass that fetches [HLT] sets the counter to -2, which is not
    an index of the program, and returns from [run_program] at once with
    flags, Memory and console as they were; a program that is the single
    line [HLT] therefore halts on its first pass with Memory still all
    zeros. *)
Theorem C9_hlt_ends_the_run :
  (forall program m line rest fuel,
     Py.getitem program (ic m) = Ok line ->
     Py.split (Py.strip line) = "HLT" :: rest ->
     loop_test program m = true ->
     hlt (ic m) = -2 /\
     ~ (0 <= hlt (ic m) < Z.of_nat (length program)) /\
     loop_body program m
       = Return {| ic := hlt (ic m); flags := flags m;
                   ram := ram m; io := io m |} /\
     run_loop (S fuel) program m
       = Some (Halted {| ic := -2; flags := flags m;
                         ram := ram m; io := io m |})) /\
  (forall line rest size io0 fuel,
     Py.split (Py.strip line) = "HLT" :: rest ->
     run_program (S fuel) [line] (create_ram size) io0
       = Some (Halted {| ic := -2; flags := initial_flags;
                         ram := replicate (Z.to_nat size) 0; io := io0 |})).
Proof.
  assert (Hbody : forall program m line rest,
            Py.getitem program (ic m) = Ok line ->
            Py.split (Py.strip line) = "HLT" :: rest ->
            loop_body program m
              = Return {| ic := -2; flags := flags m;
                          ram := ram m; io := io m |}).
  { intros program m line rest Hfetch Hsplit. unfold loop_body, dispatch.
    by rewrite Hfetch, (split_nonempty _ _ _ Hsplit), Hsplit, getitem_0. }
  split.
  - intros program m line rest fuel Hfetch Hsplit Htest.
    repeat split; [unfold hlt; lia | by eapply Hbody |].
    simpl. by rewrite Htest, (Hbody _ _ _ _ Hfetch Hsplit).
  - intros line rest size io0 fuel Hsplit.
    unfold run_program. simpl.
    by rewrite (Hbody [line] (initial (create_ram size) io0) line rest).
Qed.

Lemma C9_hlt_ends_the_run_witness :
  run_loop 1 ["MOV [0] 1"; "HLT"; "MOV [0] 2"]
      (Machine 1 initial_flags [1] (Console [] []))
    = Some (Halted (Machine (-2) initial_flags [1] (Console [] []))) /\
  run_program 1 [String.append "HLT" newline] (create_ram 3) (Console [] [])
    = Some (Halted (Machine (-2) initial_flags [0; 0; 0] (Console [] []))).
Proof.
  split.
  - apply (proj1 C9_hlt_ends_the_run ["MOV [0] 1"; "HLT"; "MOV [0] 2"]
             (Machine 1 initial_flags [1] (Console [] [])) "HLT" [] 0%nat);
      reflexivity.
  - apply (proj2 C9_hlt_ends_the_run (String.append "HLT" newline) []
             3 (Console [] []) 0%nat).
    reflexivity.
Defined.

(** * Further properties of the handlers *)

(** Enter the dispatch chain of a pass whose line and tokens are known. *)
Local Ltac enter_dispatch Hfetch Hsplit :=
  unfold loop_body, dispatch;
  rewrite Hfetch, (split_nonempty _ _ _ Hsplit), Hsplit, getitem_0, bind_Ok.

(** What [arith] returns once its tokens have been read. *)
Lemma arith_resolved op instruction opcode dtok tok1 tok2 ram dest a b :
  Py.split instruction = [opcode; dtok; tok1; tok2] ->
  Py.int (Py.strip_chars "[]" dtok) = Ok dest ->
  parse_value tok1 ram = Ok a ->
  parse_value tok2 ram = Ok b ->
  arith op instruction ram = Py.setitem ram dest (op a b).
Proof.
  intros Hsplit Hdest Ha Hb. unfold arith.
  by rewrite Hsplit, getitem_1, bind_Ok, Hdest, bind_Ok, Ha, bind_Ok, Hb,
    bind_Ok.
Qed.

(** What [arith_nonzero] returns for a divisor that is not zero. *)
Lemma arith_nonzero_resolved op instruction opcode dtok tok1 tok2 ram io dest a b :
  Py.split instruction = [opcode; dtok; tok1; tok2] ->
  Py.int (Py.strip_chars "[]" dtok) = Ok dest ->
  parse_value tok1 ram = Ok a ->
  parse_value tok2 ram = Ok b ->
  b <> 0 ->
  arith_nonzero op instruction ram io
    = Py.setitem ram dest (op a b) ≫= fun ram' => Ok (ram', io).
Proof.
  intros Hsplit Hdest Ha Hb Hnz. unfold arith_nonzero.
  rewrite Hsplit, getitem_1, bind_Ok, Hdest, bind_Ok, Ha, bind_Ok, Hb, bind_Ok.
  by destruct (Z.eqb_spec b 0).
Qed.

Lemma setitem_outside {A : Type} (l : list A) i (x : A) :
  i < - Z.of_nat (length l) \/ Z.of_nat (length l) <= i ->
  Py.setitem l i x = Raise IndexError.
Proof. intros Hi. unfold Py.setitem. by rewrite position_outside. Qed.

(** X1. A pass that fetches [ADD], [SUB] or [MUL] with the destination
    index in [0, size) and both sources resolving, to [a] and [b]: the
    cell at [dest] receives [a + b], [a - b] or [a * b] (sources are read
    before the store), nothing else in Memory changes, flags and console
    are unchanged and the counter advances by one. *)
Theorem X1_arith_writes_one_cell program m line opcode dtok tok1 tok2 dest a b :
  Py.getitem program (ic m) = Ok line ->
  Py.split (Py.strip line) = [opcode; dtok; tok1; tok2] ->
  opcode = "ADD" \/ opcode = "SUB" \/ opcode = "MUL" ->
  Py.int (Py.strip_chars "[]" dtok) = Ok dest ->
  0 <= dest < Z.of_nat (length (ram m)) ->
  parse_value tok1 (ram m) = Ok a ->
  parse_value tok2 (ram m) = Ok b ->
  exists r,
    (opcode = "ADD" -> r = a + b) /\
    (opcode = "SUB" -> r = a - b) /\
    (opcode = "MUL" -> r = a * b) /\
    loop_body program m
      = Next {| ic := ic m + 1; flags := flags m;
                ram := <[Z.to_nat dest := r]> (ram m); io := io m |}.
Proof.
  intros Hfetch Hsplit Hop Hdest Hrange Ha Hb.
  destruct Hop as [-> | [-> | ->]];
    [exists (a + b) | exists (a - b) | exists (a * b)];
    (repeat split; try done);
    enter_dispatch Hfetch Hsplit; simpl String.eqb; cbv iota;
    unfold add, sub, mul;
    by rewrite (arith_resolved _ _ _ _ _ _ _ _ _ _ Hsplit Hdest Ha Hb),
      setitem_in_range.
Qed.

Lemma X1_arith_writes_one_cell_witness :
  exists r,
    ("ADD" = "ADD" -> r = 5 + 1) /\
    ("ADD" = "SUB" -> r = 5 - 1) /\
    ("ADD" = "MUL" -> r = 5 * 1) /\
    loop_body ["ADD [0] [0] 1"] (Machine 0 initial_flags [5; 9] (Console [] []))
      = Next (Machine 1 initial_flags (<[Z.to_nat 0 := r]> [5; 9])
                (Console [] [])).
Proof.
  apply (X1_arith_writes_one_cell ["ADD [0] [0] 1"]
           (Machine 0 initial_flags [5; 9] (Console [] []))
           "ADD [0] [0] 1" "ADD" "[0]" "[0]" "1" 0 5 1);
    [reflexivity | reflexivity | by left | reflexivity | simpl; lia
     | reflexivity | reflexivity].
Defined.

(** X2. A pass that fetches [DIV] or [MOD] with the destination index in
    [0, size) and a second source [b] that is not zero stores the floor
    quotient or its remainder: the pair [q], [r] with [a = b * q + r] and
    [r] between zero and [b] on the side of [b]'s sign. Nothing is
    printed, and the counter advances by one. *)
Theorem X2_div_mod_store_floor_results
    program m line opcode dtok tok1 tok2 dest a b :
  Py.getitem program (ic m) = Ok line ->
  Py.split (Py.strip line) = [opcode; dtok; tok1; tok2] ->
  Py.int (Py.strip_chars "[]" dtok) = Ok dest ->
  0 <= dest < Z.of_nat (length (ram m)) ->
  parse_value tok1 (ram m) = Ok a ->
  parse_value tok2 (ram m) = Ok b ->
  b <> 0 ->
  exists q r,
    a = b * q + r /\
    (0 <= r < b \/ b < r <= 0) /\
    (opcode = "DIV" ->
     loop_body program m
       = Next {| ic := ic m + 1; flags := flags m;
                 ram := <[Z.to_nat dest := q]> (ram m); io := io m |}) /\
    (opcode = "MOD" ->
     loop_body program m
       = Next {| ic := ic m + 1; flags := flags m;
                 ram := <[Z.to_nat dest := r]> (ram m); io := io m |}).
Proof.
  intros Hfetch Hsplit Hdest Hrange Ha Hb Hnz.
  exists (a / b), (a mod b). split; [by apply Z.div_mod |].
  split.
  { destruct (Z.lt_trichotomy b 0) as [Hneg | [Hz | Hpos]]; [| done |].
    - right. pose proof (Z.mod_neg_bound a b Hneg). lia.
    - left. pose proof (Z.mod_pos_bound a b Hpos). lia. }
  split; intros ->; enter_dispatch Hfetch Hsplit; simpl String.eqb; cbv iota;
    unfold div, mod_;
    by rewrite (arith_nonzero_resolved _ _ _ _ _ _ _ _ _ _ _
                  Hsplit Hdest Ha Hb Hnz), setitem_in_range.
Qed.

Lemma X2_div_mod_store_floor_results_witness :
  exists q r,
    -7 = 2 * q + r /\
    (0 <= r < 2 \/ 2 < r <= 0) /\
    ("DIV" = "DIV" ->
     loop_body ["DIV [0] -7 [1]"] (Machine 0 initial_flags [0; 2] (Console [] []))
       = Next (Machine 1 initial_flags (<[Z.to_nat 0 := q]> [0; 2])
                 (Console [] []))) /\
    ("DIV" = "MOD" ->
     loop_body ["DIV [0] -7 [1]"] (Machine 0 initial_flags [0; 2] (Console [] []))
       = Next (Machine 1 initial_flags (<[Z.to_nat 0 := r]> [0; 2])
                 (Console [] []))).
Proof.
  apply (X2_div_mod_store_floor_results ["DIV [0] -7 [1]"]
           (Machine 0 initial_flags [0; 2] (Console [] []))
           "DIV [0] -7 [1]" "DIV" "[0]" "-7" "[1]" 0 (-7) 2);
    [reflexivity | reflexivity | reflexivity | simpl; lia | reflexivity
     | reflexivity | lia].
Defined.

(** X3. A pass that fetches [MOV] with a destination index at or beyond
    the Memory size, or below minus the Memory size, raises [IndexError]
    (Memory is not extended), and the run ends there. *)
Theorem X3_mov_outside_memory_crashes program m line dtok stok dest v fuel :
  loop_test program m = true ->
  Py.getitem program (ic m) = Ok line ->
  Py.split (Py.strip line) = ["MOV"; dtok; stok] ->
  Py.int (Py.strip_chars "[]" dtok) = Ok dest ->
  parse_value stok (ram m) = Ok v ->
  dest < - Z.of_nat (length (ram m)) \/ Z.of_nat (length (ram m)) <= dest ->
  loop_body program m = Uncaught IndexError /\
  run_loop (S fuel) program m = Some (Crashed IndexError).
Proof.
  intros Htest Hfetch Hsplit Hdest Hv Hout.
  assert (Hbody : loop_body program m = Uncaught IndexError).
  { enter_dispatch Hfetch Hsplit. simpl String.eqb. cbv iota. unfold mov.
    by rewrite Hsplit, getitem_1, bind_Ok, Hdest, bind_Ok, Hv, bind_Ok,
      setitem_outside. }
  split; [done |]. simpl. by rewrite Htest, Hbody.
Qed.

Lemma X3_mov_outside_memory_crashes_witness :
  run_program 1 ["MOV [1000] 5"] (create_ram 10) (Console [] [])
    = Some (Crashed IndexError).
Proof.
  apply (X3_mov_outside_memory_crashes ["MOV [1000] 5"]
           (initial (create_ram 10) (Console [] []))
           "MOV [1000] 5" "[1000]" "5" 1000 5 0%nat);
    [reflexivity | reflexivity | reflexivity | reflexivity | reflexivity
     | right; simpl; lia].
Defined.

(** X4. The same for the arithmetic instructions: [ADD], [SUB], [MUL],
    and [DIV] or [MOD] with a divisor that is not zero, raise
    [IndexError] when the destination index is outside Memory, and the
    run ends there. *)
Theorem X4_arith_outside_memory_crashes
    program m line opcode dtok tok1 tok2 dest a b fuel :
  loop_test program m = true ->
  Py.getitem program (ic m) = Ok line ->
  Py.split (Py.strip line) = [opcode; dtok; tok1; tok2] ->
  opcode = "ADD" \/ opcode = "SUB" \/ opcode = "MUL" \/
    (b <> 0 /\ (opcode = "DIV" \/ opcode = "MOD")) ->
  Py.int (Py.strip_chars "[]" dtok) = Ok dest ->
  parse_value tok1 (ram m) = Ok a ->
  parse_value tok2 (ram m) = Ok b ->
  dest < - Z.of_nat (length (ram m)) \/ Z.of_nat (length (ram m)) <= dest ->
  loop_body program m = Uncaught IndexError /\
  run_loop (S fuel) program m = Some (Crashed IndexError).
Proof.
  intros Htest Hfetch Hsplit Hop Hdest Ha Hb Hout.
  assert (Hbody : loop_body program m = Uncaught IndexError).
  { destruct Hop as [-> | [-> | [-> | [Hnz [-> | ->]]]]];
      enter_dispatch Hfetch Hsplit; simpl String.eqb; cbv iota;
      unfold add, sub, mul, div, mod_;
      first
        [ by rewrite (arith_resolved _ _ _ _ _ _ _ _ _ _ Hsplit Hdest Ha Hb),
            setitem_outside
        | by rewrite (arith_nonzero_resolved _ _ _ _ _ _ _ _ _ _ _
                        Hsplit Hdest Ha Hb Hnz), setitem_outside ]. }
  split; [done |]. simpl. by rewrite Htest, Hbody.
Qed.

Lemma X4_arith_outside_memory_crashes_witness :
  run_program 1 ["MOD [3] 7 2"] (create_ram 3) (Console [] [])
    = Some (Crashed IndexError).
Proof.
  apply (X4_arith_outside_memory_crashes ["MOD [3] 7 2"]
           (initial (create_ram 3) (Console [] []))
           "MOD [3] 7 2" "MOD" "[3]" "7" "2" 3 7 2 0%nat);
    [reflexivity | reflexivity | reflexivity | do 3 right; split; [lia | by right]
     | reflexivity | reflexivity | reflexivity | right; simpl; lia].
Defined.

(** * Comparison and the branches after it *)

(** What [cmp] returns once both operands have resolved. *)
Lemma cmp_resolved instruction opcode tok1 tok2 ram fl a b :
  Py.split instruction = [opcode; tok1; tok2] ->
  parse_value tok1 ram = Ok a ->
  parse_value tok2 ram = Ok b ->
  cmp instruction ram fl
    = Ok {| less := a <? b; equal := a =? b; greater := greater fl |}.
Proof.
  intros Hsplit Ha Hb. unfold cmp.
  rewrite Hsplit, Ha, bind_Ok, Hb, bind_Ok.
  destruct (Z.ltb_spec a b), (Z.gtb_spec a b), (Z.eqb_spec a b);
    (done || lia).
Qed.

(** The pass that runs [cmp]. *)
Lemma loop_body_cmp program m line tok1 tok2 a b :
  Py.getitem program (ic m) = Ok line ->
  Py.split (Py.strip line) = ["CMP"; tok1; tok2] ->
  parse_value tok1 (ram m) = Ok a ->
  parse_value tok2 (ram m) = Ok b ->
  loop_body program m
    = Next {| ic := ic m + 1;
              flags := {| less := a <? b; equal := a =? b;
                          greater := greater (flags m) |};
              ram := ram m; io := io m |}.
Proof.
  intros Hfetch Hsplit Ha Hb. enter_dispatch Hfetch Hsplit.
  simpl String.eqb. simpl Py.contains. cbv iota.
  by rewrite (cmp_resolved _ _ _ _ _ _ _ _ Hsplit Ha Hb).
Qed.

(** X5. A pass that fetches [CMP] with operands resolving to [a] and [b]
    sets ['less'] to [a < b] and ['equal'] to [a == b], so the two are
    never both set; ['greater'] keeps the value it had, Memory and console
    are unchanged and the counter advances by one. *)
Theorem X5_cmp_sets_less_and_equal program m line tok1 tok2 a b :
  Py.getitem program (ic m) = Ok line ->
  Py.split (Py.strip line) = ["CMP"; tok1; tok2] ->
  parse_value tok1 (ram m) = Ok a ->
  parse_value tok2 (ram m) = Ok b ->
  exists m',
    loop_body program m = Next m' /\
    (less (flags m') = true <-> a < b) /\
    (equal (flags m') = true <-> a = b) /\
    less (flags m') && equal (flags m') = false /\
    greater (flags m') = greater (flags m) /\
    ram m' = ram m /\ io m' = io m /\ ic m' = ic m + 1.
Proof.
  intros Hfetch Hsplit Ha Hb. eexists. split; [by eapply loop_body_cmp |].
  simpl. rewrite Z.ltb_lt, Z.eqb_eq. repeat split; try done.
  destruct (Z.ltb_spec a b), (Z.eqb_spec a b); (done || lia).
Qed.

Lemma X5_cmp_sets_less_and_equal_witness :
  exists m',
    loop_body ["CMP [0] 8"] (Machine 0 initial_flags [3] (Console [] []))
      = Next m' /\
    (less (flags m') = true <-> 3 < 8) /\
    (equal (flags m') = true <-> 3 = 8) /\
    less (flags m') && equal (flags m') = false /\
    greater (flags m') = false /\
    ram m' = [3] /\ io m' = Console [] [] /\ ic m' = 0 + 1.
Proof.
  apply (X5_cmp_sets_less_and_equal ["CMP [0] 8"]
           (Machine 0 initial_flags [3] (Console [] []))
           "CMP [0] 8" "[0]" "8" 3 8); reflexivity.
Defined.

(** [CMP], then a branch on the next line whose operand resolves. *)
Lemma cmp_then_jump program m line1 tok1 tok2 a b line2 opcode tok rest loc :
  Py.getitem program (ic m) = Ok line1 ->
  Py.split (Py.strip line1) = ["CMP"; tok1; tok2] ->
  parse_value tok1 (ram m) = Ok a ->
  parse_value tok2 (ram m) = Ok b ->
  Py.getitem program (ic m + 1) = Ok line2 ->
  Py.split (Py.strip line2) = opcode :: tok :: rest ->
  Py.contains "J" opcode = true ->
  parse_value tok (ram m) = Ok loc ->
  let fl := {| less := a <? b; equal := a =? b;
               greater := greater (flags m) |} in
  loop_body program m
    = Next {| ic := ic m + 1; flags := fl; ram := ram m; io := io m |} /\
  loop_body program
      {| ic := ic m + 1; flags := fl; ram := ram m; io := io m |}
    = Next {| ic := if branch_condition (Py.strip line2) fl
                    then loc else ic m + 2;
              flags := fl; ram := ram m; io := io m |}.
Proof.
  intros Hf1 Hs1 Ha Hb Hf2 Hs2 HJ Hloc fl. split.
  - by eapply loop_body_cmp.
  - rewrite (loop_body_jump _ _ line2 opcode tok rest loc); try done.
    simpl. by replace (ic m + 1 + 1) with (ic m + 2) by lia.
Qed.

(** X6. [CMP a b] followed on the next line by [JE], [JNE] or [JL] with a
    target that resolves to [loc]: after the two passes the counter is
    [loc] exactly when [a == b], [a != b] or [a < b] respectively, and two
    lines further on otherwise; Memory and console are unchanged. *)
Theorem X6_cmp_then_je_jne_jl
    program m line1 tok1 tok2 a b line2 opcode tok rest loc :
  Py.getitem program (ic m) = Ok line1 ->
  Py.split (Py.strip line1) = ["CMP"; tok1; tok2] ->
  parse_value tok1 (ram m) = Ok a ->
  parse_value tok2 (ram m) = Ok b ->
  Py.getitem program (ic m + 1) = Ok line2 ->
  Py.split (Py.strip line2) = opcode :: tok :: rest ->
  parse_value tok (ram m) = Ok loc ->
  exists m1 m2,
    loop_body program m = Next m1 /\
    ram m2 = ram m /\ io m2 = io m /\
    (opcode = "JE" ->
     loop_body program m1 = Next m2 /\
     ic m2 = if a =? b then loc else ic m + 2) /\
    (opcode = "JNE" ->
     loop_body program m1 = Next m2 /\
     ic m2 = if a =? b then ic m + 2 else loc) /\
    (opcode = "JL" ->
     loop_body program m1 = Next m2 /\
     ic m2 = if a <? b then loc else ic m + 2).
Proof.
  intros Hf1 Hs1 Ha Hb Hf2 Hs2 Hloc.
  set (fl := {| less := a <? b; equal := a =? b;
                greater := greater (flags m) |}).
  destruct (branch_condition_table line2 opcode (tok :: rest) fl Hs2)
    as (_ & HJL & _ & _ & _ & HJE & HJNE).
  exists {| ic := ic m + 1; flags := fl; ram := ram m; io := io m |},
    {| ic := if branch_condition (Py.strip line2) fl then loc else ic m + 2;
       flags := fl; ram := ram m; io := io m |}.
  split; [by eapply loop_body_cmp |].
  do 2 (split; [done |]).
  assert (Hjump : Py.contains "J" opcode = true ->
            loop_body program
                {| ic := ic m + 1; flags := fl; ram := ram m; io := io m |}
              = Next {| ic := if branch_condition (Py.strip line2) fl
                              then loc else ic m + 2;
                        flags := fl; ram := ram m; io := io m |}).
  { intros HJ. by eapply cmp_then_jump. }
  split; [| split]; intros Hop; (split; [apply Hjump; by subst opcode |]);
    simpl.
  - by rewrite (HJE Hop).
  - rewrite (HJNE Hop). simpl. by destruct (a =? b).
  - by rewrite (HJL Hop).
Qed.

Lemma X6_cmp_then_je_jne_jl_witness :
  exists m1 m2,
    loop_body ["CMP [0] 8"; "JE 6"] (Machine 0 initial_flags [8] (Console [] []))
      = Next m1 /\
    loop_body ["CMP [0] 8"; "JE 6"] m1 = Next m2 /\
    ic m2 = 6.
Proof.
  destruct (X6_cmp_then_je_jne_jl ["CMP [0] 8"; "JE 6"]
              (Machine 0 initial_flags [8] (Console [] []))
              "CMP [0] 8" "[0]" "8" 8 8 "JE 6" "JE" "6" [] 6)
    as (m1 & m2 & H1 & _ & _ & HJE & _); try reflexivity.
  exists m1, m2. destruct (HJE eq_refl) as [H2 Hic]. by repeat split.
Defined.

(** X7. [CMP a b] followed on the next line by [JLE]: the branch is taken
    exactly when [a < b], as for [JL]; with [a == b] the counter moves two
    lines on. *)
Theorem X7_cmp_then_jle program m line1 tok1 tok2 a b line2 tok rest loc :
  Py.getitem program (ic m) = Ok line1 ->
  Py.split (Py.strip line1) = ["CMP"; tok1; tok2] ->
  parse_value tok1 (ram m) = Ok a ->
  parse_value tok2 (ram m) = Ok b ->
  Py.getitem program (ic m + 1) = Ok line2 ->
  Py.split (Py.strip line2) = "JLE" :: tok :: rest ->
  parse_value tok (ram m) = Ok loc ->
  exists m1 m2,
    loop_body program m = Next m1 /\
    loop_body program m1 = Next m2 /\
    ic m2 = (if a <? b then loc else ic m + 2) /\
    ram m2 = ram m /\ io m2 = io m.
Proof.
  intros Hf1 Hs1 Ha Hb Hf2 Hs2 Hloc.
  set (fl := {| less := a <? b; equal := a =? b;
                greater := greater (flags m) |}).
  destruct (branch_condition_table line2 "JLE" (tok :: rest) fl Hs2)
    as (_ & _ & _ & HJLE & _).
  destruct (cmp_then_jump program m line1 tok1 tok2 a b line2 "JLE" tok rest loc)
    as [H1 H2]; try done.
  eexists _, _. split; [exact H1 |]. split; [exact H2 |].
  subst fl. simpl. by rewrite (HJLE eq_refl).
Qed.

Lemma X7_cmp_then_jle_witness :
  exists m1 m2,
    loop_body ["CMP 1 1"; "JLE 7"] (Machine 0 initial_flags [] (Console [] []))
      = Next m1 /\
    loop_body ["CMP 1 1"; "JLE 7"] m1 = Next m2 /\
    ic m2 = 2.
Proof.
  destruct (X7_cmp_then_jle ["CMP 1 1"; "JLE 7"]
              (Machine 0 initial_flags [] (Console [] []))
              "CMP 1 1" "1" "1" 1 1 "JLE 7" "7" [] 7)
    as (m1 & m2 & H1 & H2 & Hic & _); try reflexivity.
  by exists m1, m2.
Defined.

(** X8. In every state of every run, a pass that fetches [JG] or [JGE]
    does not branch: the counter advances by one, whatever was compared
    before. *)
Theorem X8_jg_jge_never_branch program ram0 io0 P m line opcode tok rest loc :
  run_via program P (initial ram0 io0) m ->
  Py.getitem program (ic m) = Ok line ->
  Py.split (Py.strip line) = opcode :: tok :: rest ->
  opcode = "JG" \/ opcode = "JGE" ->
  parse_value tok (ram m) = Ok loc ->
  loop_body program m
    = Next {| ic := ic m + 1; flags := flags m; ram := ram m; io := io m |}.
Proof.
  intros Hrun Hfetch Hsplit Hop Hloc.
  pose proof (greater_stays_false _ _ _ _ _ Hrun) as Hgr.
  destruct (branch_condition_table line opcode (tok :: rest) (flags m) Hsplit)
    as (_ & _ & HJG & _ & HJGE & _).
  rewrite (loop_body_jump _ _ line opcode tok rest loc); try done.
  - by destruct Hop as [Hop | Hop];
      rewrite ?(HJG Hop), ?(HJGE Hop), Hgr.
  - by destruct Hop as [-> | ->].
Qed.

Lemma X8_jg_jge_never_branch_witness :
  loop_body ["CMP 2 1"; "JG 0"]
      (Machine 1 (mkFlags false false false) [] (Console [] []))
    = Next (Machine 2 (mkFlags false false false) [] (Console [] [])).
Proof.
  apply (X8_jg_jge_never_branch ["CMP 2 1"; "JG 0"] [] (Console [] [])
           (fun _ => True)
           (Machine 1 (mkFlags false false false) [] (Console [] []))
           "JG 0" "JG" "0" [] 0);
    [| reflexivity | reflexivity | by left | reflexivity].
  apply (run_via_pass _ _ _ (initial [] (Console [] [])));
    [apply run_via_here | done | reflexivity | reflexivity].
Defined.

(** * What a pass can change *)

(** Split the outermost bind of a successful computation. *)
Local Ltac bind_step H :=
  match type of H with
  | (?r ≫= _) = _ =>
      destruct r as [? | ?] eqn:?;
      [rewrite bind_Ok in H; cbv beta in H | by rewrite bind_Raise in H]
  end.

Lemma setitem_length {A : Type} (l l' : list A) i (x : A) :
  Py.setitem l i x = Ok l' -> length l' = length l.
Proof.
  unfold Py.setitem. destruct (Py.position (length l) i); [| done].
  intros [= <-]. apply length_insert.
Qed.

Lemma mov_length instruction ram ram' :
  mov instruction ram = Ok ram' -> length ram' = length ram.
Proof.
  unfold mov. intros H.
  destruct (Py.split instruction) as [|? [|? [|? [|? ?]]]]; try done.
  do 3 bind_step H. by eapply setitem_length.
Qed.

Lemma arith_length op instruction ram ram' :
  arith op instruction ram = Ok ram' -> length ram' = length ram.
Proof.
  unfold arith. intros H.
  destruct (Py.split instruction) as [|? [|? [|? [|? [|? ?]]]]]; try done.
  do 4 bind_step H. by eapply setitem_length.
Qed.

(** [div] and [mod] keep the size of Memory, read no input and write at
    most one line. *)
Lemma arith_nonzero_effects op instruction ram io ram' io' :
  arith_nonzero op instruction ram io = Ok (ram', io') ->
  length ram' = length ram /\
  stdin io' = stdin io /\
  exists out : list string, stdout io' = (stdout io ++ out)%list.
Proof.
  unfold arith_nonzero. intros H.
  destruct (Py.split instruction) as [|? [|? [|? [|? [|? ?]]]]]; try done.
  do 4 bind_step H.
  destruct (_ =? 0).
  - injection H as <- <-. repeat split. by eexists.
  - bind_step H. injection H as <- <-.
    split; [by eapply setitem_length |]. split; [done |].
    exists []. by rewrite app_nil_r.
Qed.

(** [interrupt] keeps the size of Memory, reads at most one line and
    writes one chunk. *)
Lemma interrupt_effects instruction ram io ram' io' :
  interrupt instruction ram io = Ok (ram', io') ->
  length ram' = length ram /\ console_extends io io'.
Proof.
  unfold interrupt. intros H.
  destruct (Py.contains "print" (Py.lower instruction)).
  - bind_step H. destruct (Py.contains "[" _).
    + do 2 bind_step H. injection H as <- <-.
      split; [done |]. split; [by exists [] | by eexists].
    + injection H as <- <-.
      split; [done |]. split; [by exists [] | by eexists].
  - unfold input in H. destruct (stdin io) as [|first rest] eqn:Hin; [done |].
    rewrite bind_Ok in H. cbv beta iota in H.
    do 4 bind_step H. injection H as <- <-.
    split; [by eapply setitem_length |].
    split; [by exists [first] | by eexists].
Qed.

Lemma console_extends_refl io : console_extends io io.
Proof. split; exists []; [done | by rewrite app_nil_r]. Qed.

Lemma console_extends_print text io : console_extends io (print text io).
Proof. split; [by exists [] | by eexists]. Qed.

Lemma console_extends_trans io1 io2 io3 :
  console_extends io1 io2 -> console_extends io2 io3 ->
  console_extends io1 io3.
Proof.
  intros [[u1 Hu1] [o1 Ho1]] [[u2 Hu2] [o2 Ho2]]. split.
  - exists (u1 ++ u2)%list. by rewrite Hu1, Hu2, app_assoc.
  - exists (o1 ++ o2)%list. by rewrite Ho2, Ho1, app_assoc.
Qed.

(** A pass that reaches the loop test again keeps the size of Memory,
    only extends the console, and leaves Memory alone unless its opcode
    is one that stores. *)
Lemma loop_body_effects program m m' :
  loop_body program m = Next m' ->
  length (ram m') = length (ram m) /\
  console_extends (io m) (io m') /\
  (ram m' = ram m \/
   exists opcode, opcode_at program m = Some opcode /\ stores opcode).
Proof.
  unfold loop_body. intros H.
  destruct (Py.getitem program (ic m)) as [line|] eqn:Hfetch; [|done].
  destruct (dispatch (Py.strip line) m) as [[[m1 jf]|m1]|e] eqn:Hd; try done.
  assert (Hm' : ram m' = ram m1 /\ io m' = io m1)
    by (destruct jf; by injection H as <-).
  destruct Hm' as [-> ->]. clear H.
  assert (Hop : opcode_at program m = head (Py.split (Py.strip line)))
    by (unfold opcode_at; by rewrite Hfetch).
  unfold dispatch in Hd.
  destruct (String.eqb (Py.strip line) "").
  { injection Hd as <- _. split; [done |].
    split; [apply console_extends_refl | by left]. }
  destruct (Py.split (Py.strip line)) as [|opcode toks] eqn:Hsplit; [done|].
  rewrite getitem_0, bind_Ok in Hd. simpl in Hop.
  assert (Hstores : stores opcode ->
            exists opcode, opcode_at program m = Some opcode /\ stores opcode)
    by (intros ?; by exists opcode).
  unfold stores in Hstores.
  destruct (String.eqb_spec opcode "MOV") as [Heq | _].
  { bind_step Hd. injection Hd as <- _. simpl.
    split; [by eapply mov_length |].
    split; [apply console_extends_refl | right; apply Hstores; tauto]. }
  destruct (String.eqb_spec opcode "ADD") as [Heq | _].
  { bind_step Hd. injection Hd as <- _. simpl.
    split; [by eapply arith_length |].
    split; [apply console_extends_refl | right; apply Hstores; tauto]. }
  destruct (String.eqb_spec opcode "SUB") as [Heq | _].
  { bind_step Hd. injection Hd as <- _. simpl.
    split; [by eapply arith_length |].
    split; [apply console_extends_refl | right; apply Hstores; tauto]. }
  destruct (String.eqb_spec opcode "MUL") as [Heq | _].
  { bind_step Hd. injection Hd as <- _. simpl.
    split; [by eapply arith_length |].
    split; [apply console_extends_refl | right; apply Hstores; tauto]. }
  destruct (String.eqb_spec opcode "DIV") as [Heq | _].
  { destruct (div _ _ _) as [[r' io'] |] eqn:Hdiv; [| done].
    rewrite bind_Ok in Hd. injection Hd as <- _. simpl.
    destruct (arith_nonzero_effects _ _ _ _ _ _ Hdiv) as (Hlen & Hin & Hout).
    split; [done |].
    split; [split; [exists []; by rewrite Hin | done]
           | right; apply Hstores; tauto]. }
  destruct (String.eqb_spec opcode "MOD") as [Heq | _].
  { destruct (mod_ _ _ _) as [[r' io'] |] eqn:Hmod; [| done].
    rewrite bind_Ok in Hd. injection Hd as <- _. simpl.
    destruct (arith_nonzero_effects _ _ _ _ _ _ Hmod) as (Hlen & Hin & Hout).
    split; [done |].
    split; [split; [exists []; by rewrite Hin | done]
           | right; apply Hstores; tauto]. }
  destruct (Py.contains "J" opcode).
  { bind_step Hd. injection Hd as <- _. simpl.
    split; [done |]. split; [apply console_extends_refl | by left]. }
  destruct (String.eqb_spec opcode "CMP") as [Heq | _].
  { bind_step Hd. injection Hd as <- _. simpl.
    split; [done |]. split; [apply console_extends_refl | by left]. }
  destruct (String.eqb_spec opcode "HLT") as [Heq | _]; [done |].
  destruct (String.eqb_spec opcode "INT") as [Heq | _].
  { destruct (interrupt _ _ _) as [[r' io'] |] eqn:Hint; [| done].
    rewrite bind_Ok in Hd. injection Hd as <- _. simpl.
    destruct (interrupt_effects _ _ _ _ _ Hint) as (Hlen & Hio).
    split; [done |]. split; [done | right; apply Hstores; tauto]. }
  injection Hd as <- _. simpl.
  split; [done |]. split; [apply console_extends_print | by left].
Qed.

(** A handler whose result is passed on does not return from the run. *)
Local Ltac handler_continues Hd :=
  match type of Hd with
  | (?r ≫= _) = _ =>
      let x := fresh "x" in
      destruct r as [x |];
      [rewrite bind_Ok in Hd; try (destruct x as [? ?]) | idtac]
  end.

(** The pass that runs [hlt]. *)
Lemma loop_body_return program m m' :
  loop_body program m = Return m' ->
  m' = {| ic := -2; flags := flags m; ram := ram m; io := io m |}.
Proof.
  unfold loop_body. intros H.
  destruct (Py.getitem program (ic m)) as [line|]; [|done].
  destruct (dispatch (Py.strip line) m) as [[[m1 jf]|m1]|e] eqn:Hd;
    [by destruct jf | | done].
  injection H as <-. unfold dispatch in Hd.
  destruct (String.eqb (Py.strip line) ""); [done |].
  bind_step Hd.
  do 6 (match type of Hd with
        | (if ?c then _ else _) = _ => destruct c; [by handler_continues Hd |]
        end).
  destruct (Py.contains "J" _); [by handler_continues Hd |].
  destruct (String.eqb _ "CMP"); [by handler_continues Hd |].
  destruct (String.eqb _ "HLT"); [by injection Hd as <- |].
  destruct (String.eqb _ "INT"); [by handler_continues Hd | done].
Qed.

(** * Whole runs *)

Section WholeRuns.

Variable program : list string.

Lemma run_via_weaken (P : machine -> Prop) m m' :
  run_via program P m m' -> run_via program (fun _ => True) m m'.
Proof.
  induction 1 as [m | m m1 m2 _ IH _ Htest Hbody]; [apply run_via_here |].
  by eapply run_via_pass.
Qed.

(** A run can be extended at its start. *)
Lemma run_via_first (P : machine -> Prop) m m1 m2 :
  P m ->
  loop_test program m = true ->
  loop_body program m = Next m1 ->
  run_via program P m1 m2 ->
  run_via program P m m2.
Proof.
  intros HP Htest Hbody Hrun.
  induction Hrun as [m1 | m1 m2 m3 _ IH HP2 Htest2 Hbody2].
  - eapply run_via_pass; [apply run_via_here | done..].
  - eapply run_via_pass; [by apply IH | done..].
Qed.

(** How [run_loop] ends: after some passes, the loop test fails, or the
    next pass returns or raises. *)
Lemma run_loop_end fuel m o :
  run_loop fuel program m = Some o ->
  exists m',
    run_via program (fun _ => True) m m' /\
    ((loop_test program m' = false /\ o = Completed m') \/
     (loop_test program m' = true /\
      loop_body program m' = Return {| ic := -2; flags := flags m';
                                       ram := ram m'; io := io m' |} /\
      o = Halted {| ic := -2; flags := flags m'; ram := ram m'; io := io m' |}) \/
     (loop_test program m' = true /\
      exists e, loop_body program m' = Uncaught e /\ o = Crashed e)).
Proof.
  revert m. induction fuel as [|fuel IH]; intros m H; [done |].
  simpl in H. destruct (loop_test program m) eqn:Htest.
  - destruct (loop_body program m) as [m1 | m1 | e] eqn:Hbody.
    + destruct (IH _ H) as (m' & Hrun & Hend).
      exists m'. split; [| done]. by eapply run_via_first.
    + pose proof (loop_body_return _ _ _ Hbody) as ->.
      injection H as <-. exists m. split; [apply run_via_here |].
      right; left. by rewrite <- Hbody.
    + injection H as <-. exists m. split; [apply run_via_here |].
      right; right. split; [done |]. by exists e.
  - injection H as <-. exists m. split; [apply run_via_here |]. by left.
Qed.

(** Passes keep the size of Memory and only extend the console. *)
Lemma run_via_effects (P : machine -> Prop) m m' :
  run_via program P m m' ->
  length (ram m') = length (ram m) /\ console_extends (io m) (io m').
Proof.
  induction 1 as [m | m m1 m2 _ [IHlen IHio] _ _ Hbody].
  - split; [done | apply console_extends_refl].
  - destruct (loop_body_effects _ _ _ Hbody) as (Hlen & Hio & _).
    split; [congruence | by eapply console_extends_trans].
Qed.

(** Passes that run no [cmp] keep the flags. *)
Lemma run_via_flags m m' :
  run_via program (no_cmp program) m m' -> flags m' = flags m.
Proof.
  induction 1 as [m | m m1 m2 _ IH Hno _ Hbody]; [done |].
  destruct (loop_body_shape _ _ _ Hbody)
    as [_ Hfl _ | Hop _ _ _ | ? ? ? ? ? _ _ _ _ _ Hfl];
    [congruence | by destruct Hno | congruence].
Qed.

(** Passes that run no storing handler keep Memory. *)
Lemma run_via_ram m m' :
  run_via program (no_store program) m m' -> ram m' = ram m.
Proof.
  induction 1 as [m | m m1 m2 _ IH Hno _ Hbody]; [done |].
  destruct (loop_body_effects _ _ _ Hbody) as (_ & _ & [Hram | Hst]);
    [congruence |].
  destruct Hst as (opcode & Hop & Hst). by destruct (Hno _ Hop).
Qed.

End WholeRuns.

(** X9. Memory is never resized: whenever a run ends without an uncaught
    exception, by [HLT] or by running off the end of the program, Memory
    has the number of cells it started with. *)
Theorem X9_memory_size_is_fixed program fuel ram0 io0 o mf :
  run_program fuel program ram0 io0 = Some o ->
  final_state o = Some mf ->
  length (ram mf) = length ram0.
Proof.
  unfold run_program. intros Hrun Hfinal.
  destruct (run_loop_end _ _ _ _ Hrun) as (m' & Hvia & Hend).
  destruct (run_via_effects _ _ _ _ Hvia) as [Hlen _]. simpl in Hlen.
  destruct Hend as [[_ ->] | [(_ & _ & ->) | (_ & e & _ & ->)]];
    simpl in Hfinal; [| | done]; by injection Hfinal as <-.
Qed.

Lemma X9_memory_size_is_fixed_witness :
  length (ram (Machine (-2) initial_flags [0; 4; 0] (Console [] [])))
    = length (create_ram 3).
Proof.
  apply (X9_memory_size_is_fixed ["MOV [-2] 4"; "HLT"] 2 (create_ram 3)
           (Console [] [])
           (Halted (Machine (-2) initial_flags [0; 4; 0] (Console [] []))));
    reflexivity.
Defined.

(** X10. A run only reads input from the front and only appends to the
    output: whenever a run ends without an uncaught exception, the input
    left is a suffix of the input it started with and the output written
    before the run is a prefix of the output after it. *)
Theorem X10_console_is_only_extended program fuel ram0 io0 o mf :
  run_program fuel program ram0 io0 = Some o ->
  final_state o = Some mf ->
  (exists used : list string, stdin io0 = (used ++ stdin (io mf))%list) /\
  (exists out : list string, stdout (io mf) = (stdout io0 ++ out)%list).
Proof.
  unfold run_program. intros Hrun Hfinal.
  destruct (run_loop_end _ _ _ _ Hrun) as (m' & Hvia & Hend).
  destruct (run_via_effects _ _ _ _ Hvia) as [_ Hio]. simpl in Hio.
  destruct Hend as [[_ ->] | [(_ & _ & ->) | (_ & e & _ & ->)]];
    simpl in Hfinal; [| | done]; by injection Hfinal as <-.
Qed.

Lemma X10_console_is_only_extended_witness :
  let io0 := Console ["41"; "rest"] ["earlier"] in
  let mf := Machine 2 initial_flags [41]
              (Console ["rest"]
                 ["earlier"; ">> "; String.append "41" newline]) in
  (exists used : list string, stdin io0 = (used ++ stdin (io mf))%list) /\
  (exists out : list string, stdout (io mf) = (stdout io0 ++ out)%list).
Proof.
  intros io0 mf.
  apply (X10_console_is_only_extended ["INT READ [0]"; "INT PRINT [0]"] 3 [0]
           io0 (Completed mf) mf); reflexivity.
Defined.

(** X11. Flags persist until the next comparison: over any number of
    passes none of which runs [cmp], the flags stay as they were
    (branches only read them). *)
Theorem X11_flags_persist_without_cmp program m m' :
  run_via program (no_cmp program) m m' ->
  flags m' = flags m.
Proof. apply run_via_flags. Qed.

Lemma X11_flags_persist_without_cmp_witness :
  flags (Machine 5 (mkFlags true false false) [1] (Console [] []))
    = mkFlags true false false.
Proof.
  apply (X11_flags_persist_without_cmp ["JL 5"]
           (Machine 0 (mkFlags true false false) [1] (Console [] []))).
  apply (run_via_pass _ _ _
           (Machine 0 (mkFlags true false false) [1] (Console [] [])));
    [apply run_via_here | by vm_compute | reflexivity | reflexivity].
Defined.

(** X12. Only [MOV], [ADD], [SUB], [MUL], [DIV], [MOD] and [INT] modify
    Memory: over any number of passes whose opcodes are none of these
    (comparisons, branches, blank lines, unknown instructions), Memory
    stays as it was. *)
Theorem X12_memory_changes_only_by_stores program m m' :
  run_via program (no_store program) m m' ->
  ram m' = ram m.
Proof. apply run_via_ram. Qed.

Lemma X12_memory_changes_only_by_stores_witness :
  ram (Machine 1 (mkFlags true false false) [3; 8] (Console [] [])) = [3; 8].
Proof.
  apply (X12_memory_changes_only_by_stores ["CMP [0] [1]"]
           (Machine 0 initial_flags [3; 8] (Console [] []))).
  apply (run_via_pass _ _ _ (Machine 0 initial_flags [3; 8] (Console [] [])));
    [apply run_via_here | | reflexivity | reflexivity].
  intros opcode Hop. vm_compute in Hop. injection Hop as <-.
  unfold stores. intros Hs. repeat destruct Hs as [Hs | Hs]; discriminate.
Defined.

(** * Termination *)

Lemma getitem_In {A : Type} (l : list A) i (x : A) :
  Py.getitem l i = Ok x -> In x l.
Proof.
  unfold Py.getitem. destruct (Py.position (length l) i) as [k|]; [| done].
  destruct (l !! k) as [y|] eqn:Hk; [| done]. intros [= <-].
  apply list_elem_of_In. by eapply list_elem_of_lookup_2.
Qed.

(** A pass over a line that is not routed to [jmp] moves to the next
    line, if it reaches the loop test again. *)
Lemma jump_free_pass program m m' :
  forallb jump_free program = true ->
  loop_body program m = Next m' ->
  ic m' = ic m + 1.
Proof.
  intros Hfree Hbody.
  destruct (loop_body_shape _ _ _ Hbody)
    as [Hic _ _ | _ Hic _ _ | line opcode tok rest loc Hf Hs HJ _ _ _];
    [done | done |].
  apply getitem_In in Hf.
  rewrite forallb_forall in Hfree. specialize (Hfree _ Hf).
  unfold jump_free in Hfree. rewrite Hs in Hfree. simpl in Hfree.
  by rewrite HJ in Hfree.
Qed.

Lemma jump_free_run_ends program fuel : forall m,
  forallb jump_free program = true ->
  Z.of_nat (length program) - ic m <= Z.of_nat fuel ->
  exists o, run_loop (S fuel) program m = Some o.
Proof.
  induction fuel as [|fuel IH]; intros m Hfree Hfuel.
  - simpl. unfold loop_test.
    destruct (Z.ltb_spec (ic m) (Z.of_nat (length program))); [lia |].
    by eexists.
  - change (run_loop (S (S fuel)) program m)
      with (if loop_test program m then
              match loop_body program m with
              | Next m' => run_loop (S fuel) program m'
              | Return m' => Some (Halted m')
              | Uncaught e => Some (Crashed e)
              end
            else Some (Completed m)).
    destruct (loop_test program m); [| by eexists].
    destruct (loop_body program m) as [m' | m' | e] eqn:Hbody;
      [| by eexists | by eexists].
    apply IH; [done |].
    rewrite (jump_free_pass _ _ _ Hfree Hbody). lia.
Qed.

(** X13. A program without branch instructions always terminates: if no
    line is routed to [jmp], the run started at the first line ends (by
    [HLT], by an exception or at the end of the program) within
    [len(program)] passes, whatever Memory and input are. *)
Theorem X13_jump_free_program_terminates program ram0 io0 :
  forallb jump_free program = true ->
  exists o, run_program (S (length program)) program ram0 io0 = Some o.
Proof.
  intros Hfree. unfold run_program.
  apply jump_free_run_ends; [done |]. simpl. lia.
Qed.

Lemma X13_jump_free_program_terminates_witness :
  exists o,
    run_program 4 ["MOV [0] 5"; "bogus"; "ADD [0] [0] [0]"] [0] (Console [] [])
      = Some o.
Proof.
  apply (X13_jump_free_program_terminates
           ["MOV [0] 5"; "bogus"; "ADD [0] [0] [0]"] [0] (Console [] [])).
  reflexivity.
Defined.

(** X14. A [JMP] whose target resolves to its own line never terminates:
    no number of passes ends the run. *)
Theorem X14_jump_to_self_never_ends program m line tok rest fuel :
  loop_test program m = true ->
  Py.getitem program (ic m) = Ok line ->
  Py.split (Py.strip line) = "JMP" :: tok :: rest ->
  parse_value tok (ram m) = Ok (ic m) ->
  run_loop fuel program m = None.
Proof.
  intros Htest Hfetch Hsplit Hloc.
  assert (Hbody : loop_body program m = Next m).
  { rewrite (loop_body_jump _ _ line "JMP" tok rest (ic m)); try done.
    destruct (branch_condition_table line "JMP" (tok :: rest) (flags m) Hsplit)
      as (HJMP & _).
    rewrite (HJMP eq_refl). by destruct m. }
  induction fuel as [|fuel IH]; [done |].
  simpl. by rewrite Htest, Hbody.
Qed.

Lemma X14_jump_to_self_never_ends_witness :
  run_program 1000 ["MOV [0] 1"; "JMP [0]"] [0] (Console [] []) = None.
Proof.
  change (run_loop 999 ["MOV [0] 1"; "JMP [0]"]
            (Machine 1 initial_flags [1] (Console [] [])) = None).
  apply (X14_jump_to_self_never_ends ["MOV [0] 1"; "JMP [0]"]
           (Machine 1 initial_flags [1] (Console [] []))
           "JMP [0]" "[0]" [] 999%nat); reflexivity.
Defined.

(** X15. A [JMP] whose target resolves to an address at or beyond the end
    of the program ends the run normally, with the counter at that
    address and everything else unchanged. *)
Theorem X15_jump_past_the_end_completes program m line tok rest loc fuel :
  loop_test program m = true ->
  Py.getitem program (ic m) = Ok line ->
  Py.split (Py.strip line) = "JMP" :: tok :: rest ->
  parse_value tok (ram m) = Ok loc ->
  Z.of_nat (length program) <= loc ->
  run_loop (S (S fuel)) program m
    = Some (Completed {| ic := loc; flags := flags m;
                         ram := ram m; io := io m |}).
Proof.
  intros Htest Hfetch Hsplit Hloc Hpast.
  assert (Hbody : loop_body program m
                  = Next {| ic := loc; flags := flags m;
                            ram := ram m; io := io m |}).
  { rewrite (loop_body_jump _ _ line "JMP" tok rest loc); try done.
    destruct (branch_condition_table line "JMP" (tok :: rest) (flags m) Hsplit)
      as (HJMP & _).
    by rewrite (HJMP eq_refl). }
  change (run_loop (S (S fuel)) program m)
    with (if loop_test program m then
            match loop_body program m with
            | Next m' => run_loop (S fuel) program m'
            | Return m' => Some (Halted m')
            | Uncaught e => Some (Crashed e)
            end
          else Some (Completed m)).
  rewrite Htest, Hbody. simpl. unfold loop_test. simpl.
  by destruct (Z.ltb_spec loc (Z.of_nat (length program))); [lia |].
Qed.

Lemma X15_jump_past_the_end_completes_witness :
  run_program 2 ["JMP 7"; "INT PRINT skipped"] [] (Console [] [])
    = Some (Completed (Machine 7 initial_flags [] (Console [] []))).
Proof.
  apply (X15_jump_past_the_end_completes ["JMP 7"; "INT PRINT skipped"]
           (initial [] (Console [] [])) "JMP 7" "7" [] 7 0%nat);
    [reflexivity | reflexivity | reflexivity | reflexivity | simpl; lia].
Defined.

(** * Blank lines, unknown instructions and surrounding whitespace *)

Lemma lstrip_by_all p s :
  forallb p (list_ascii_of_string s) = true ->
  Py.lstrip_by p s = "".
Proof.
  induction s as [|c s IH]; [done |]. simpl.
  intros [-> Hs]%andb_prop. by apply IH.
Qed.

(** X16. A line made of whitespace only (or empty) is skipped: the
    counter advances by one and nothing else changes, whatever the
    state. *)
Theorem X16_blank_line_is_skipped program m line :
  Py.getitem program (ic m) = Ok line ->
  forallb Py.isspace (list_ascii_of_string line) = true ->
  loop_body program m
    = Next {| ic := ic m + 1; flags := flags m; ram := ram m; io := io m |}.
Proof.
  intros Hfetch Hblank. unfold loop_body, dispatch.
  rewrite Hfetch. unfold Py.strip. by rewrite (lstrip_by_all _ _ Hblank).
Qed.

Lemma X16_blank_line_is_skipped_witness :
  let line := String.append "  " newline in
  loop_body [line; "HLT"] (Machine 0 initial_flags [1] (Console [] []))
    = Next (Machine 1 initial_flags [1] (Console [] [])).
Proof.
  intros line.
  apply (X16_blank_line_is_skipped [line; "HLT"]
           (Machine 0 initial_flags [1] (Console [] [])) line); reflexivity.
Defined.

(** X17. An instruction whose opcode is none of [MOV], [ADD], [SUB],
    [MUL], [DIV], [MOD], [CMP], [HLT], [INT] (spelled exactly so, in upper
    case) and has no [J] in it is reported as invalid on the output and
    skipped: Memory, flags and input are unchanged and the counter
    advances by one. *)
Theorem X17_unknown_instruction_is_reported program m line opcode toks :
  Py.getitem program (ic m) = Ok line ->
  Py.split (Py.strip line) = opcode :: toks ->
  ~ In opcode ["MOV"; "ADD"; "SUB"; "MUL"; "DIV"; "MOD"; "CMP"; "HLT"; "INT"] ->
  Py.contains "J" opcode = false ->
  loop_body program m
    = Next {| ic := ic m + 1; flags := flags m; ram := ram m;
              io := print ("Invalid instruction: " +:+ Py.strip line) (io m) |}.
Proof.
  intros Hfetch Hsplit Hnot HJ. enter_dispatch Hfetch Hsplit.
  repeat match goal with
         | |- context [String.eqb opcode ?name] =>
             destruct (String.eqb_spec opcode name) as [-> | _];
             [exfalso; apply Hnot; simpl; tauto |]
         end.
  by rewrite HJ.
Qed.

Lemma X17_unknown_instruction_is_reported_witness :
  loop_body ["mov [0] 5"] (Machine 0 initial_flags [1] (Console [] []))
    = Next (Machine 1 initial_flags [1]
              (print "Invalid instruction: mov [0] 5" (Console [] []))).
Proof.
  apply (X17_unknown_instruction_is_reported ["mov [0] 5"]
           (Machine 0 initial_flags [1] (Console [] []))
           "mov [0] 5" "mov" ["[0]"; "5"]);
    [reflexivity | reflexivity | | reflexivity].
  simpl. intros H. repeat destruct H as [H | H]; discriminate || done.
Defined.

Lemma rstrip_by_idem p s :
  Py.rstrip_by p (Py.rstrip_by p s) = Py.rstrip_by p s.
Proof.
  induction s as [|c s IH]; [done |]. simpl.
  destruct (p c && Py.is_empty (Py.rstrip_by p s)) eqn:Hc; [done |].
  simpl. by rewrite IH, Hc.
Qed.

Lemma strip_idem line : Py.strip (Py.strip line) = Py.strip line.
Proof.
  unfold Py.strip.
  destruct (lstrip_by_starts Py.isspace line) as [-> | (c & s' & -> & Hc)];
    [done |].
  assert (Hr : Py.rstrip_by Py.isspace (String c s')
               = String c (Py.rstrip_by Py.isspace s'))
    by (simpl; by rewrite Hc).
  rewrite Hr. simpl Py.lstrip_by. rewrite Hc, <- Hr. apply rstrip_by_idem.
Qed.

Lemma getitem_fmap {A B : Type} (f : A -> B) (l : list A) i :
  Py.getitem (f <$> l) i
    = match Py.getitem l i with
      | Ok x => Ok (f x)
      | Raise e => Raise e
      end.
Proof.
  unfold Py.getitem. rewrite length_fmap.
  destruct (Py.position (length l) i) as [k|]; [| done].
  rewrite list_lookup_fmap. by destruct (l !! k).
Qed.

Lemma loop_body_strip program m :
  loop_body (Py.strip <$> program) m = loop_body program m.
Proof.
  unfold loop_body. rewrite getitem_fmap.
  destruct (Py.getitem program (ic m)) as [line|]; [| done].
  by rewrite strip_idem.
Qed.

(** X18. Whitespace around a program line (indentation, the newline kept
    by [readlines]) never matters: running the stripped lines gives the
    same result as running the lines as read, pass for pass. *)
Theorem X18_surrounding_whitespace_is_ignored program fuel m :
  run_loop fuel (Py.strip <$> program) m = run_loop fuel program m.
Proof.
  revert m. induction fuel as [|fuel IH]; intros m; [done |].
  simpl. unfold loop_test. rewrite length_fmap, loop_body_strip.
  destruct (ic m <? Z.of_nat (length program)); [| done].
  by destruct (loop_body program m).
Qed.

(** * Input and output *)

(** X19. The print form of [INT] (the instruction contains [print] in
    any letter case): with a third token containing a bracket it prints
    the Memory cell the token names, otherwise it prints the tokens from
    the third on, joined by single spaces. Either way Memory, flags and
    pending input are unchanged and the counter advances by one. *)
Theorem X19_int_print_forms program m line kw tok rest :
  Py.getitem program (ic m) = Ok line ->
  Py.split (Py.strip line) = "INT" :: kw :: tok :: rest ->
  Py.contains "print" (Py.lower (Py.strip line)) = true ->
  (forall i v,
     Py.contains "[" tok = true ->
     Py.int (Py.strip_chars "[]" tok) = Ok i ->
     Py.getitem (ram m) i = Ok v ->
     loop_body program m
       = Next {| ic := ic m + 1; flags := flags m; ram := ram m;
                 io := print (Py.str v) (io m) |}) /\
  (Py.contains "[" tok = false ->
   loop_body program m
     = Next {| ic := ic m + 1; flags := flags m; ram := ram m;
               io := print (Py.join " " (tok :: rest)) (io m) |}).
Proof.
  intros Hfetch Hsplit Hprint. split.
  - intros i v Hbr Hi Hv. enter_dispatch Hfetch Hsplit.
    simpl String.eqb. simpl Py.contains. cbv iota.
    unfold interrupt.
    by rewrite Hprint, Hsplit, getitem_2, bind_Ok, Hbr, Hi, bind_Ok, Hv, bind_Ok.
  - intros Hbr. enter_dispatch Hfetch Hsplit.
    simpl String.eqb. simpl Py.contains. cbv iota.
    unfold interrupt.
    by rewrite Hprint, Hsplit, getitem_2, bind_Ok, Hbr.
Qed.

Lemma X19_int_print_forms_witness :
  loop_body ["INT PRINT [1]"] (Machine 0 initial_flags [4; -7] (Console [] []))
    = Next (Machine 1 initial_flags [4; -7] (print "-7" (Console [] []))) /\
  loop_body ["INT Print  hello   world"]
      (Machine 0 initial_flags [] (Console [] []))
    = Next (Machine 1 initial_flags [] (print "hello world" (Console [] []))).
Proof.
  split.
  - apply (proj1 (X19_int_print_forms ["INT PRINT [1]"]
                   (Machine 0 initial_flags [4; -7] (Console [] []))
                   "INT PRINT [1]" "PRINT" "[1]" [] eq_refl eq_refl eq_refl)
             1 (-7)); reflexivity.
  - apply (proj2 (X19_int_print_forms ["INT Print  hello   world"]
                   (Machine 0 initial_flags [] (Console [] []))
                   "INT Print  hello   world" "Print" "hello" ["world"]
                   eq_refl eq_refl eq_refl)).
    reflexivity.
Defined.

(** X20. The input form of [INT] (no [print] in the instruction): it
    writes the prompt, takes the next input line, and when that line
    parses as an integer [n] and the third token names a cell in
    [0, size), stores [n] there; flags are unchanged and the counter
    advances by one. *)
Theorem X20_int_input_stores_the_line
    program m line kw tok rest first more n dest :
  Py.getitem program (ic m) = Ok line ->
  Py.split (Py.strip line) = "INT" :: kw :: tok :: rest ->
  Py.contains "print" (Py.lower (Py.strip line)) = false ->
  stdin (io m) = first :: more ->
  Py.int first = Ok n ->
  Py.int (Py.strip_chars "[]" tok) = Ok dest ->
  0 <= dest < Z.of_nat (length (ram m)) ->
  loop_body program m
    = Next {| ic := ic m + 1; flags := flags m;
              ram := <[Z.to_nat dest := n]> (ram m);
              io := {| stdin := more;
                       stdout := (stdout (io m) ++ [">> "])%list |} |}.
Proof.
  intros Hfetch Hsplit Hprint Hin Hn Hdest Hrange.
  enter_dispatch Hfetch Hsplit.
  simpl String.eqb. simpl Py.contains. cbv iota.
  unfold interrupt, input.
  by rewrite Hprint, Hin, bind_Ok, Hn, bind_Ok, Hsplit, getitem_2, bind_Ok,
    Hdest, bind_Ok, setitem_in_range.
Qed.

Lemma X20_int_input_stores_the_line_witness :
  loop_body ["INT READ [1]"]
      (Machine 0 initial_flags [0; 0] (Console [" 42 "; "next"] []))
    = Next (Machine 1 initial_flags [0; 42] (Console ["next"] [">> "])).
Proof.
  apply (X20_int_input_stores_the_line ["INT READ [1]"]
           (Machine 0 initial_flags [0; 0] (Console [" 42 "; "next"] []))
           "INT READ [1]" "READ" "[1]" [] " 42 " ["next"] 42 1);
    [reflexivity | reflexivity | reflexivity | reflexivity | reflexivity
     | reflexivity | simpl; lia].
Defined.

(** X21. The input form of [INT] ends the run with [EOFError] when no
    input is left, and with [ValueError] when the line read is not an
    integer, whatever the rest of the instruction is. *)
Theorem X21_int_input_failures program m line toks fuel :
  loop_test program m = true ->
  Py.getitem program (ic m) = Ok line ->
  Py.split (Py.strip line) = "INT" :: toks ->
  Py.contains "print" (Py.lower (Py.strip line)) = false ->
  (stdin (io m) = [] ->
   run_loop (S fuel) program m = Some (Crashed EOFError)) /\
  (forall first more,
     stdin (io m) = first :: more ->
     Py.int first = Raise ValueError ->
     run_loop (S fuel) program m = Some (Crashed ValueError)).
Proof.
  intros Htest Hfetch Hsplit Hprint.
  assert (Hbody : forall e,
            interrupt (Py.strip line) (ram m) (io m) = Raise e ->
            run_loop (S fuel) program m = Some (Crashed e)).
  { intros e He. simpl. rewrite Htest.
    enter_dispatch Hfetch Hsplit.
    simpl String.eqb. simpl Py.contains. cbv iota. by rewrite He. }
  split.
  - intros Hin. apply Hbody. unfold interrupt, input. by rewrite Hprint, Hin.
  - intros first more Hin Hbad. apply Hbody. unfold interrupt, input.
    by rewrite Hprint, Hin, bind_Ok, Hbad.
Qed.

Lemma X21_int_input_failures_witness :
  run_program 1 ["INT READ [0]"] [0] (Console [] [])
    = Some (Crashed EOFError) /\
  run_program 1 ["INT READ [0]"] [0] (Console ["4.5"] [])
    = Some (Crashed ValueError).
Proof.
  split.
  - apply (proj1 (X21_int_input_failures ["INT READ [0]"]
                   (initial [0] (Console [] [])) "INT READ [0]"
                   ["READ"; "[0]"] 0%nat eq_refl eq_refl eq_refl eq_refl)).
    reflexivity.
  - apply (proj2 (X21_int_input_failures ["INT READ [0]"]
                   (initial [0] (Console ["4.5"] [])) "INT READ [0]"
                   ["READ"; "[0]"] 0%nat eq_refl eq_refl eq_refl eq_refl)
             "4.5" []); reflexivity.
Defined.

(** * Operands *)

Section Operands.

Implicit Types (s t : string) (p : ascii -> bool) (c : ascii).

Lemma app_snoc_nonempty s c : Py.is_empty (s +:+ String c "") = false.
Proof. by destruct s. Qed.

Lemma rstrip_by_snoc p s c :
  p c = false ->
  Py.rstrip_by p (s +:+ String c "") = s +:+ String c "".
Proof.
  intros Hc. induction s as [|d s IH].
  - simpl. by rewrite Hc.
  - rewrite app_String. simpl. rewrite IH, app_snoc_nonempty.
    by rewrite andb_false_r.
Qed.

Lemma lstrip_by_snoc p s c :
  p c = false ->
  Py.lstrip_by p (s +:+ String c "") = Py.lstrip_by p s +:+ String c "".
Proof.
  intros Hc. induction s as [|d s IH].
  - simpl. by rewrite Hc.
  - rewrite app_String. simpl. by destruct (p d).
Qed.

(** A string that ends with a comma is not the digits of an integer. *)
Lemma int_digits_comma s : forall acc after_digit,
  Py.int_digits acc after_digit (s +:+ ",") = None.
Proof.
  induction s as [|d s IH]; intros acc after_digit; [done |].
  rewrite app_String. simpl.
  destruct (Ascii.eqb d "_"); [by destruct after_digit |].
  by destruct (Py.digit_value d).
Qed.

Lemma int_comma s : Py.int (s +:+ ",") = Raise ValueError.
Proof.
  unfold Py.int.
  rewrite lstrip_by_snoc, rstrip_by_snoc by done.
  destruct (Py.lstrip_by Py.int_space s) as [|c t]; [done |].
  rewrite app_String.
  assert (Hdigits : Py.int_digits 0 false (String c (t +:+ ",")) = None)
    by (rewrite <- app_String; apply int_digits_comma).
  destruct c as [[] [] [] [] [] [] [] []];
    first [by rewrite Hdigits | by rewrite int_digits_comma].
Qed.

(** [int] skips blanks, tabs and line ends around the digits, but not
    the separators 28 to 31, which [split] and [strip] do treat as
    whitespace. *)
Lemma int_keeps_separators :
  Py.int (String "028" "5") = Raise ValueError /\
  Py.int (String "031" "5") = Raise ValueError /\
  Py.split (String "028" "5") = ["5"] /\
  Py.int (String "009" (String.append " 5 " newline)) = Ok 5.
Proof. repeat split; reflexivity. Qed.

Lemma strip_chars_comma s :
  Py.strip_chars "[]" (s +:+ ",")
    = Py.lstrip_by (fun c => Py.char_in c "[]") s +:+ ",".
Proof.
  unfold Py.strip_chars. by rewrite lstrip_by_snoc, rstrip_by_snoc.
Qed.

End Operands.

(** X22. An operand token that ends with a comma is never accepted:
    whether bracketed or not, resolving it raises [ValueError]. *)
Theorem X22_comma_after_operand_is_rejected tok ram :
  parse_value (tok +:+ ",") ram = Raise ValueError.
Proof.
  unfold parse_value.
  destruct (Py.contains "[" _ && Py.contains "]" _).
  - by rewrite strip_chars_comma, int_comma.
  - apply int_comma.
Qed.

(** X23. A [MOV] whose destination token is followed by a comma, as in
    [MOV [0], 5], ends the run with [ValueError]: the comma stays on the
    token and the index does not parse. *)
Theorem X23_mov_with_comma_crashes program m line dtok stok fuel :
  loop_test program m = true ->
  Py.getitem program (ic m) = Ok line ->
  Py.split (Py.strip line) = ["MOV"; dtok +:+ ","; stok] ->
  run_loop (S fuel) program m = Some (Crashed ValueError).
Proof.
  intros Htest Hfetch Hsplit. simpl. rewrite Htest.
  enter_dispatch Hfetch Hsplit. simpl String.eqb. cbv iota. unfold mov.
  by rewrite Hsplit, getitem_1, bind_Ok, strip_chars_comma, int_comma.
Qed.

Lemma X23_mov_with_comma_crashes_witness :
  run_program 1 ["MOV [0], 5"] (create_ram 3) (Console [] [])
    = Some (Crashed ValueError).
Proof.
  apply (X23_mov_with_comma_crashes ["MOV [0], 5"]
           (initial (create_ram 3) (Console [] [])) "MOV [0], 5" "[0]" "5"
           0%nat); reflexivity.
Defined.

(** X24. A bracketed operand whose index [i] is negative but not below
    minus the Memory size reads the cell [size + i], counting from the
    end of Memory. *)
Theorem X24_negative_index_counts_from_the_end value ram i :
  Py.contains "[" value = true ->
  Py.contains "]" value = true ->
  Py.int (Py.strip_chars "[]" value) = Ok i ->
  - Z.of_nat (length ram) <= i < 0 ->
  exists v,
    ram !! Z.to_nat (Z.of_nat (length ram) + i) = Some v /\
    parse_value value ram = Ok v.
Proof.
  intros Hopen Hclose Hint Hi. unfold parse_value.
  rewrite Hopen, Hclose, Hint, bind_Ok. simpl.
  rewrite getitem_from_end by done.
  replace (i + Z.of_nat (length ram)) with (Z.of_nat (length ram) + i) by lia.
  destruct (lookup_lt_is_Some_2 ram (Z.to_nat (Z.of_nat (length ram) + i)))
    as [v Hv]; [lia |].
  exists v. split; [done |]. apply getitem_lookup; [lia | done].
Qed.

Lemma X24_negative_index_counts_from_the_end_witness :
  exists v,
    [10; 20; 30] !! Z.to_nat (Z.of_nat (length [10; 20; 30]) + -2) = Some v /\
    parse_value "[-2]" [10; 20; 30] = Ok v.
Proof.
  apply (X24_negative_index_counts_from_the_end "[-2]" [10; 20; 30] (-2));
    [reflexivity | reflexivity | reflexivity | simpl; lia].
Defined.

(** ** Decimal literals *)

Section Literals.

Import Decimal.

Lemma int_digits_of_uint_acc d : forall acc : positive,
  Py.int_digits (Z.pos acc) true (NilEmpty.string_of_uint d)
    = Some (Z.pos (Pos.of_uint_acc d acc)).
Proof.
  induction d as [| d IH | d IH | d IH | d IH | d IH | d IH | d IH | d IH
                  | d IH | d IH]; intros acc; [done | ..];
    simpl; rewrite <- IH; f_equal;
    match goal with
    | |- context [Z.of_nat (nat_of_ascii ?c)] =>
        let v := eval vm_compute in (Z.of_nat (nat_of_ascii c)) in
        change (Z.of_nat (nat_of_ascii c)) with v
    end; lia.
Qed.

Lemma int_digits_of_uint d : forall after_digit,
  after_digit = true \/ d <> Nil ->
  Py.int_digits 0 after_digit (NilEmpty.string_of_uint d)
    = Some (Z.of_N (Pos.of_uint d)).
Proof.
  induction d as [| d IH | d IH | d IH | d IH | d IH | d IH | d IH | d IH
                  | d IH | d IH]; intros after_digit Hd;
    [by destruct Hd as [-> | ?] | by apply IH; left | ..];
    simpl; apply int_digits_of_uint_acc.
Qed.

Lemma rstrip_of_uint d :
  Py.rstrip_by Py.int_space (NilEmpty.string_of_uint d)
    = NilEmpty.string_of_uint d.
Proof. induction d; simpl; by rewrite ?IHd. Qed.

Lemma strip_of_uint d :
  Py.rstrip_by Py.int_space
      (Py.lstrip_by Py.int_space (NilEmpty.string_of_uint d))
    = NilEmpty.string_of_uint d.
Proof. destruct d; simpl; by rewrite ?rstrip_of_uint. Qed.

Lemma to_uint_nonnil p : Pos.to_uint p <> Nil.
Proof.
  intros Hnil. pose proof (DecimalPos.Unsigned.of_to p) as H.
  by rewrite Hnil in H.
Qed.

Lemma int_of_uint d :
  d <> Nil ->
  Py.int (NilEmpty.string_of_uint d) = Ok (Z.of_N (Pos.of_uint d)).
Proof.
  intros Hd. unfold Py.int. rewrite strip_of_uint.
  pose proof (int_digits_of_uint d false (or_intror Hd)) as H.
  destruct d; [done | ..]; simpl in *; by rewrite H.
Qed.

Lemma int_str n : Py.int (Py.str n) = Ok n.
Proof.
  unfold Py.str. destruct n as [| p | p]; [done | |]; simpl.
  - rewrite int_of_uint by apply to_uint_nonnil.
    by rewrite DecimalPos.Unsigned.of_to.
  - unfold Py.int. simpl. rewrite rstrip_of_uint. simpl.
    rewrite int_digits_of_uint by (right; apply to_uint_nonnil).
    by rewrite DecimalPos.Unsigned.of_to.
Qed.

Lemma no_bracket_in_uint d :
  Py.contains "[" (NilEmpty.string_of_uint d) = false.
Proof. induction d; simpl; by rewrite ?IHd. Qed.

Lemma no_bracket_in_str n : Py.contains "[" (Py.str n) = false.
Proof.
  unfold Py.str. destruct n as [| p | p]; [done | |]; simpl;
    by rewrite ?no_bracket_in_uint.
Qed.

End Literals.

(** X25. Every integer written in decimal, as [print] writes it (a minus
    sign for negatives, no other sign, no spaces), is an immediate operand
    that resolves to that integer whatever Memory holds; so a value
    printed by [INT PRINT [i]] is read back unchanged by the input
    form. *)
Theorem X25_decimal_literal_resolves_to_itself n ram :
  Py.int (Py.str n) = Ok n /\
  parse_value (Py.str n) ram = Ok n.
Proof.
  split; [apply int_str |].
  unfold parse_value. rewrite no_bracket_in_str. apply int_str.
Qed.

(** X26. Fresh Memory is all zeros and has the requested size: every
    index in [-size, size) of [create_ram(size)] reads 0, every other
    index raises [IndexError], and a size of zero or less gives an empty
    Memory. *)
Theorem X26_fresh_memory_reads_zero size i :
  length (create_ram size) = Z.to_nat size /\
  (- size <= i < size -> Py.getitem (create_ram size) i = Ok 0) /\
  (i < - size \/ size <= i \/ size <= 0 ->
   Py.getitem (create_ram size) i = Raise IndexError).
Proof.
  unfold create_ram. split; [apply length_replicate |]. split.
  - intros Hi.
    destruct (Z.ltb_spec i 0).
    + rewrite getitem_from_end by (rewrite length_replicate; lia).
      apply getitem_lookup; [rewrite length_replicate; lia |].
      apply lookup_replicate_2. rewrite length_replicate. lia.
    + apply getitem_lookup; [lia |]. apply lookup_replicate_2. lia.
  - intros Hi. apply getitem_outside. rewrite length_replicate. lia.
Qed.

Lemma X26_fresh_memory_reads_zero_witness :
  Py.getitem (create_ram 4) (-4) = Ok 0 /\
  Py.getitem (create_ram 4) 4 = Raise IndexError.
Proof.
  split.
  - apply (proj1 (proj2 (X26_fresh_memory_reads_zero 4 (-4)))). lia.
  - apply (proj2 (proj2 (X26_fresh_memory_reads_zero 4 4))). lia.
Defined.

(** * The entry point *)

Lemma run_program_console program fuel ram0 io0 o mf :
  run_program fuel program ram0 io0 = Some o ->
  final_state o = Some mf ->
  console_extends io0 (io mf).
Proof.
  unfold run_program. intros Hrun Hfinal.
  destruct (run_loop_end _ _ _ _ Hrun) as (m' & Hvia & Hend).
  destruct (run_via_effects _ _ _ _ Hvia) as [_ Hio]. simpl in Hio.
  destruct Hend as [[_ ->] | [(_ & _ & ->) | (_ & e & _ & ->)]];
    simpl in Hfinal; [| | done]; by injection Hfinal as <-.
Qed.

(** X27. The script checks its answer line before anything else: with no
    input it dies with [EOFError], with fewer than two words on the line
    with [IndexError], and with a second word that is not an integer with
    [ValueError]; in all three cases whatever the files are, since no
    file has been opened yet. *)
Theorem X27_main_checks_the_answer_first files fuel io0 :
  (stdin io0 = [] -> main files fuel io0 = Some (Died EOFError)) /\
  (forall answer more,
     stdin io0 = answer :: more ->
     (length (Py.split answer) < 2)%nat ->
     main files fuel io0 = Some (Died IndexError)) /\
  (forall answer more name size rest,
     stdin io0 = answer :: more ->
     Py.split answer = name :: size :: rest ->
     Py.int size = Raise ValueError ->
     main files fuel io0 = Some (Died ValueError)).
Proof.
  unfold main, input. split; [| split].
  - by intros ->.
  - intros answer more -> Hshort.
    destruct (Py.split answer) as [|name [|size rest]]; [done | done |].
    simpl in Hshort. lia.
  - intros answer more name size rest -> Hsplit Hbad.
    by rewrite Hsplit, getitem_0, bind_Ok, getitem_1, bind_Ok, Hbad.
Qed.

Lemma X27_main_checks_the_answer_first_witness :
  main (fun _ => None) 0 (Console [] []) = Some (Died EOFError) /\
  main (fun _ => None) 0 (Console ["prog.asm"] []) = Some (Died IndexError) /\
  main (fun _ => None) 0 (Console ["prog.asm ten"] []) = Some (Died ValueError).
Proof.
  split; [| split].
  - apply (proj1 (X27_main_checks_the_answer_first
                    (fun _ => None) 0 (Console [] []))).
    reflexivity.
  - apply (proj1 (proj2 (X27_main_checks_the_answer_first
                           (fun _ => None) 0 (Console ["prog.asm"] [])))
             "prog.asm" []); [reflexivity | vm_compute; lia].
  - apply (proj2 (proj2 (X27_main_checks_the_answer_first
                           (fun _ => None) 0 (Console ["prog.asm ten"] [])))
             "prog.asm ten" [] "prog.asm" "ten" []); reflexivity.
Defined.

(** X28. When the script reaches its end, the output is what was there
    before, then the prompt for the file name, then whatever the program
    wrote, then the completion message as the very last chunk; and the
    input consumed is the answer line followed by what the program
    read. *)
Theorem X28_main_reports_completion_last files fuel io0 io' :
  main files fuel io0 = Some (Finished io') ->
  exists (answer : string) (used out : list string),
    stdin io0 = (answer :: used ++ stdin io')%list /\
    stdout io'
      = (stdout io0 ++ ["Enter program filename: "] ++ out
         ++ ["Program execution complete" +:+ newline])%list.
Proof.
  unfold main, input. intros H.
  destruct (stdin io0) as [|answer more] eqn:Hin; [done |].
  match type of H with
  | match ?r with _ => _ end = _ => destruct r as [[file_name ram0] | e]
  end; [| done].
  destruct (read_program files file_name) as [program |]; [| done].
  destruct (run_program _ _ _ _) as [o |] eqn:Hrun; [| done].
  assert (Hio : forall mf, final_state o = Some mf ->
            io' = print "Program execution complete" (io mf) ->
            exists (answer0 : string) (used out : list string),
              answer :: more = (answer0 :: used ++ stdin io')%list /\
              stdout io'
                = (stdout io0 ++ ["Enter program filename: "] ++ out
                   ++ ["Program execution complete" +:+ newline])%list).
  { intros mf Hfinal ->.
    destruct (run_program_console _ _ _ _ _ _ Hrun Hfinal)
      as [[used Hused] [out Hout]]. simpl in Hused, Hout.
    exists answer, used, out. split; [by rewrite Hused |].
    simpl. rewrite Hout. by rewrite <- !app_assoc. }
  destruct o as [m | m | e]; [| | done]; injection H as <-; by eapply Hio.
Qed.

Lemma X28_main_reports_completion_last_witness :
  let files := fun _ : string => Some "INT PRINT done" in
  exists (answer : string) (used out : list string),
    ["prog.asm 1"; "left"] = (answer :: used ++ ["left"])%list /\
    ["earlier"; "Enter program filename: "; String.append "done" newline;
     String.append "Program execution complete" newline]
      = (["earlier"] ++ ["Enter program filename: "] ++ out
         ++ ["Program execution complete" +:+ newline])%list.
Proof.
  intros files.
  apply (X28_main_reports_completion_last files 2
           (Console ["prog.asm 1"; "left"] ["earlier"])
           (Console ["left"]
              ["earlier"; "Enter program filename: ";
               String.append "done" newline;
               String.append "Program execution complete" newline])).
  reflexivity.
Defined.

(** * The counter after a branch *)

(** X29. A pass that runs [jmp] on an instruction whose operand resolves
    to [loc] ends with the counter exactly as the handler set it: [loc]
    when the test the handler makes holds, [ic + 1] when it fails; the
    loop adds no increment of its own, and flags, Memory and console are
    untouched. The handler makes no test for [JMP]; it tests ['less'] for
    [JL] and for [JLE], ['greater'] for [JG] and for [JGE], ['equal'] for
    [JE] and its negation for [JNE]. *)
Theorem X29_branch_pass_sets_ic_once program m line opcode tok rest loc :
  Py.getitem program (ic m) = Ok line ->
  Py.split (Py.strip line) = opcode :: tok :: rest ->
  Py.contains "J" opcode = true ->
  parse_value tok (ram m) = Ok loc ->
  jmp (Py.strip line) (ram m) (ic m) (flags m)
    = Ok (if branch_condition (Py.strip line) (flags m)
          then loc else ic m + 1) /\
  loop_body program m
    = Next {| ic := if branch_condition (Py.strip line) (flags m)
                    then loc else ic m + 1;
              flags := flags m; ram := ram m; io := io m |} /\
  (opcode = "JMP" -> branch_condition (Py.strip line) (flags m) = true) /\
  (opcode = "JL" \/ opcode = "JLE" ->
   branch_condition (Py.strip line) (flags m) = less (flags m)) /\
  (opcode = "JG" \/ opcode = "JGE" ->
   branch_condition (Py.strip line) (flags m) = greater (flags m)) /\
  (opcode = "JE" ->
   branch_condition (Py.strip line) (flags m) = equal (flags m)) /\
  (opcode = "JNE" ->
   branch_condition (Py.strip line) (flags m) = negb (equal (flags m))).
Proof.
  intros Hfetch Hsplit HJ Hloc.
  destruct (branch_condition_table line opcode (tok :: rest) (flags m) Hsplit)
    as (HJMP & HJL & HJG & HJLE & HJGE & HJE & HJNE).
  split; [by eapply jmp_resolved |].
  split; [by eapply loop_body_jump |].
  split; [done |].
  split; [by intros [Hop | Hop]; [apply HJL | apply HJLE] |].
  split; [by intros [Hop | Hop]; [apply HJG | apply HJGE] |].
  done.
Qed.

Lemma X29_branch_pass_sets_ic_once_witness :
  let taken := Machine 0 {| less := false; equal := true; greater := false |}
                 [7; 4] (Console [] []) in
  let skipped := Machine 0 initial_flags [7; 4] (Console [] []) in
  loop_body ["JE [1]"; ""; "HLT"] taken
    = Next (Machine 4 (flags taken) [7; 4] (Console [] [])) /\
  loop_body ["JE [1]"; ""; "HLT"] skipped
    = Next (Machine 1 initial_flags [7; 4] (Console [] [])).
Proof.
  split.
  - apply (X29_branch_pass_sets_ic_once ["JE [1]"; ""; "HLT"]
             (Machine 0 {| less := false; equal := true; greater := false |}
                [7; 4] (Console [] []))
             "JE [1]" "JE" "[1]" [] 4); reflexivity.
  - apply (X29_branch_pass_sets_ic_once ["JE [1]"; ""; "HLT"]
             (Machine 0 initial_flags [7; 4] (Console [] []))
             "JE [1]" "JE" "[1]" [] 4); reflexivity.
Defined.
